(** * MagLothes storefront: cart, checkout and authentication over browser storage

    A shallow embedding of the state model of the MagLothes scripts
    (cart.js, auth.js, checkout.js and the buy-now part of products.js).
    Every script function that touches storage becomes a computation in a
    small state-and-exception monad over a [World] that holds the two
    storage areas, the page's URL parameters, the clock and a log of the
    visible effects (notifications, error messages, navigation). *)

From Stdlib Require Import ZArith QArith String Ascii List Bool Lia.
From Stdlib Require Import DecimalString.
Import ListNotations.

Local Open Scope Z_scope.
Local Open Scope string_scope.

(* ===================================================================== *)
(** ** The JavaScript platform                                            *)
(* ===================================================================== *)

Module Js.

(** JavaScript numbers are taken as exact rationals, with the one
    non-number the scripts can produce, [NaN] (it appears when a
    property of an empty object is multiplied). *)
Inductive Number := Num (q : Q) | NaN.

Definition add (a b : Number) : Number :=
  match a, b with
  | Num x, Num y => Num (x + y)
  | _, _ => NaN
  end.

Definition mul (a b : Number) : Number :=
  match a, b with
  | Num x, Num y => Num (x * y)
  | _, _ => NaN
  end.

(** [a < b] on rationals, as a boolean. *)
Definition ltb (a b : Q) : bool := negb (Qle_bool b a).

(** Two numbers denote the same value ([NaN] only matches itself here;
    it is used to compare stored fields, not to model [===]). *)
Definition same (a b : Number) : Prop :=
  match a, b with
  | Num x, Num y => (x == y)%Q
  | NaN, NaN => True
  | _, _ => False
  end.

(** [String(n)] for an integer. *)
Definition toString (n : Z) : string := NilZero.string_of_int (Z.to_int n).

(** Truthiness of a string or null. *)
Definition truthy_string (s : string) : bool := negb (s =? "").

Definition truthy (s : option string) : bool :=
  match s with
  | Some s => truthy_string s
  | None => false
  end.

(** [s || d] for a string-or-null [s]. *)
Definition or_default (s : option string) (d : string) : string :=
  match s with
  | Some s => if truthy_string s then s else d
  | None => d
  end.

(** [a === b] on string-or-null values. *)
Definition strict_eq (a b : option string) : bool :=
  match a, b with
  | Some x, Some y => x =? y
  | None, None => true
  | _, _ => false
  end.

(** White space as [String.prototype.trim] sees it (the ASCII part). *)
Definition is_space (c : ascii) : bool :=
  let n := nat_of_ascii c in
  ((9 <=? n) && (n <=? 13) || (n =? 32))%nat.

Fixpoint trimStart (s : string) : string :=
  match s with
  | String c s' => if is_space c then trimStart s' else s
  | EmptyString => EmptyString
  end.

Fixpoint rev_string (acc s : string) : string :=
  match s with
  | String c s' => rev_string (String c acc) s'
  | EmptyString => acc
  end.

Definition trimEnd (s : string) : string :=
  rev_string "" (trimStart (rev_string "" s)).

Definition trim (s : string) : string := trimEnd (trimStart s).

Definition lower (c : ascii) : ascii :=
  let n := nat_of_ascii c in
  if ((65 <=? n) && (n <=? 90))%nat then ascii_of_nat (n + 32) else c.

Fixpoint toLowerCase (s : string) : string :=
  match s with
  | String c s' => String (lower c) (toLowerCase s')
  | EmptyString => EmptyString
  end.

(** *** Arrays *)

Fixpoint findIndex_from {A} (f : A -> bool) (l : list A) (i : Z) : Z :=
  match l with
  | [] => -1
  | x :: l' => if f x then i else findIndex_from f l' (i + 1)
  end.

(** [l.findIndex(f)]: the index of the first match, or -1. *)
Definition findIndex {A} (f : A -> bool) (l : list A) : Z :=
  findIndex_from f l 0.

(** [l[i] = g(l[i])] for an index inside the array. *)
Fixpoint update_at {A} (i : nat) (g : A -> A) (l : list A) : list A :=
  match l, i with
  | [], _ => []
  | x :: l', O => g x :: l'
  | x :: l', S i' => x :: update_at i' g l'
  end.

(** [const x = l.find(f); if (x) x.field = ...]: the object that [find]
    returns is the array's own element, so the assignment changes the
    first match inside the array. *)
Fixpoint mutate_found {A} (f : A -> bool) (g : A -> A) (l : list A) : list A :=
  match l with
  | [] => []
  | x :: l' => if f x then g x :: l' else x :: mutate_found f g l'
  end.

(** *** Regular expressions, matched by derivatives *)

Inductive regex :=
| Fail                              (* matches nothing *)
| Eps                               (* the empty string *)
| Class (p : ascii -> bool)         (* one character of a class *)
| Cat (r1 r2 : regex)
| Alt (r1 r2 : regex)
| Star (r : regex)
| Both (r1 r2 : regex).             (* both match: lookahead at the start *)

Fixpoint nullable (r : regex) : bool :=
  match r with
  | Fail => false
  | Eps => true
  | Class _ => false
  | Cat r1 r2 => nullable r1 && nullable r2
  | Alt r1 r2 => nullable r1 || nullable r2
  | Star _ => true
  | Both r1 r2 => nullable r1 && nullable r2
  end.

Fixpoint deriv (c : ascii) (r : regex) : regex :=
  match r with
  | Fail => Fail
  | Eps => Fail
  | Class p => if p c then Eps else Fail
  | Cat r1 r2 =>
      if nullable r1 then Alt (Cat (deriv c r1) r2) (deriv c r2)
      else Cat (deriv c r1) r2
  | Alt r1 r2 => Alt (deriv c r1) (deriv c r2)
  | Star r1 => Cat (deriv c r1) (Star r1)
  | Both r1 r2 => Both (deriv c r1) (deriv c r2)
  end.

(** [/^r$/.test(s)] *)
Fixpoint test (r : regex) (s : string) : bool :=
  match s with
  | EmptyString => nullable r
  | String c s' => test (deriv c r) s'
  end.

Definition Plus (r : regex) : regex := Cat r (Star r).

Fixpoint AtLeast (n : nat) (r : regex) : regex :=
  match n with
  | O => Star r
  | S n' => Cat r (AtLeast n' r)
  end.

Definition in_range (lo hi : nat) (c : ascii) : bool :=
  let n := nat_of_ascii c in ((lo <=? n) && (n <=? hi))%nat.

Definition is_char (d c : ascii) : bool := Ascii.eqb c d.

(** [\d], [\w], [\W], [\s], [.] and "any character at all". *)
Definition digit : ascii -> bool := in_range 48 57.
Definition lowercase : ascii -> bool := in_range 97 122.
Definition uppercase : ascii -> bool := in_range 65 90.
Definition word (c : ascii) : bool :=
  digit c || lowercase c || uppercase c || is_char "_" c.
Definition not_word (c : ascii) : bool := negb (word c).
Definition dot (c : ascii) : bool :=
  negb (is_char "010" c || is_char "013" c).
Definition any (c : ascii) : bool := true.

(** [(?=r)] at the start of a pattern: some prefix matches [r]. *)
Definition Lookahead (r : regex) : regex := Cat r (Star (Class any)).

(** [encodeURIComponent], on ASCII text. *)
Definition unreserved (c : ascii) : bool :=
  uppercase c || lowercase c || digit c
  || existsb (Ascii.eqb c) ["-"; "_"; "."; "!"; "~"; "*"; "'"; "("; ")"]%char.

Definition hex_digit (n : nat) : ascii :=
  if (n <? 10)%nat then ascii_of_nat (48 + n) else ascii_of_nat (55 + n).

Fixpoint encodeURIComponent (s : string) : string :=
  match s with
  | EmptyString => EmptyString
  | String c s' =>
      if unreserved c then String c (encodeURIComponent s')
      else
        let n := nat_of_ascii c in
        String "%" (String (hex_digit (n / 16)) (String (hex_digit (n mod 16))
                                                   (encodeURIComponent s')))
  end.

(** *** Stored text

    Storage holds strings, and the scripts only ever read them through
    [JSON.parse].  A stored string is therefore kept as what
    [JSON.parse] makes of it: [Json v] is the text [JSON.stringify (v)],
    which parses back to [v], and [Garbled s] stands for a string [s]
    that [JSON.parse] rejects, such as [{not json] or the empty
    string. *)
Inductive text (A : Type) :=
| Json (v : A)
| Garbled (s : string).
Arguments Json {A} v.
Arguments Garbled {A} s.

Definition truthy_text {A} (t : option (text A)) : bool :=
  match t with
  | Some (Json _) => true
  | Some (Garbled s) => truthy_string s
  | None => false
  end.

Inductive Exception := SyntaxError.

Inductive Completion (A : Type) :=
| Normal (a : A)
| Throw (e : Exception).
Arguments Normal {A} a.
Arguments Throw {A} e.

(** [JSON.stringify] writes a [NaN] as null; the value is kept here as it
    was computed. *)
Definition JSON_stringify {A} (v : A) : text A := Json v.

Definition JSON_parse {A} (t : text A) : Completion A :=
  match t with
  | Json v => Normal v
  | Garbled _ => Throw SyntaxError
  end.

(** [new Date().toISOString()]: the instant, in milliseconds. *)
Inductive ISOString := toISOString (ms : Z).

(** [n.toString(36).toUpperCase()] for a non-negative integer. *)
Definition digit36 (d : Z) : ascii :=
  if (d <? 10)%Z then ascii_of_nat (Z.to_nat (48 + d))
  else ascii_of_nat (Z.to_nat (55 + d)).

Fixpoint toString36_aux (fuel : nat) (n : Z) (acc : string) : string :=
  match fuel with
  | O => acc
  | S fuel' =>
      let acc' := String (digit36 (n mod 36)) acc in
      if (n / 36 =? 0)%Z then acc' else toString36_aux fuel' (n / 36) acc'
  end.

Definition toString36 (n : Z) : string :=
  toString36_aux (S (Z.to_nat (Z.log2 n))) n "".

End Js.
Export Js.

(* ===================================================================== *)
(** ** Data model                                                         *)
(* ===================================================================== *)

Module Product.
(** One entry of the catalogue (data/products.json). *)
Record t := {
  id : option Z;              (* absent when the entry lacks an id *)
  name : string;
  description : string;
  category : string;
  subcategory : string;
  price : Q;
  originalPrice : option Q;
  onSale : bool;
  featured : bool;
  image : string;
  sizes : list string;
  colors : list string
}.
End Product.

Module CartItem.
(** A cart line, as [addToCart] pushes it. *)
Record t := {
  id : Z;
  name : string;
  price : Q;
  image : string;
  quantity : Q;
  size : option string;
  color : option string;
  addedAt : ISOString
}.

Definition with_quantity (q : Q) (i : t) : t :=
  {| id := id i; name := name i; price := price i; image := image i;
     quantity := q; size := size i; color := color i;
     addedAt := addedAt i |}.
End CartItem.

Module BuyNowItem.
(** [{ ...product, quantity, size, color, isBuyNow: true }] *)
Record t := {
  product : Product.t;
  quantity : Q;
  size : option string;
  color : option string;
  isBuyNow : bool
}.
End BuyNowItem.

Module Customer.
(** The checkout form, as [handleCheckoutSubmit] reads it; a field the
    form lacks is null. *)
Record Shipping := {
  firstName : option string;
  lastName : option string;
  address : option string;
  city : option string;
  state : option string;
  zip : option string;
  country : option string;
  phone : option string
}.
Record Payment := {
  cardNumber : option string;
  cardName : option string;
  expiry : option string;
  cvv : option string
}.
Record t := {
  email : option string;
  shipping : Shipping;
  payment : Payment
}.
End Customer.

(** An element of [order.items]: a cart line, the buy-now item, or the
    empty object [{}] that [processOrder] falls back to. *)
Inductive OrderItem :=
| CartLine (i : CartItem.t)
| BuyNowLine (b : BuyNowItem.t)
| EmptyObject.

Module Order.
Record t := {
  id : string;
  date : ISOString;
  customer : Customer.t;
  items : list OrderItem;
  mode : string;
  status : string;
  subtotal : Number;
  shipping : Number;
  tax : Number;
  total : Number
}.
End Order.

Module User.
Record t := {
  id : string;
  name : string;
  email : string;
  password : string;
  createdAt : ISOString
}.
End User.

Module Session.
Record t := {
  email : string;
  name : string;
  loginTime : ISOString
}.
End Session.

Definition Cart := list CartItem.t.

(* ===================================================================== *)
(** ** The world the scripts run in                                       *)
(* ===================================================================== *)

(** [localStorage], by key. *)
Record LocalStorage := {
  cart_slot : option (text Cart);             (* "fashion-store-cart" *)
  users_slot : option (text (list User.t));   (* "fashion-store-users" *)
  orders_slot : option (text (list Order.t))  (* "fashion-store-orders" *)
}.

(** [sessionStorage], by key. *)
Record SessionStorage := {
  session_slot : option (text Session.t);     (* "fashion-store-session" *)
  buy_now_slot : option (text BuyNowItem.t)   (* "buy-now-item" *)
}.

(** What the cart page shows after [renderCart]. *)
Inductive CartView :=
| EmptyState
| CartContent (lines : list (string * Q)) (subtotal shipping total : Q).

(** Visible effects, in the order they happen. *)
Inductive Effect :=
| ConsoleError (msg : string)
| Notification (msg : string)
| CartBadge (count : Q)
| CartRendered (v : CartView)
| AuthError (msg : string)
| CheckoutRendered (title : string) (subtotal shipping tax total : Q)
| CheckoutError (msgs : list string)
| OrderSuccess (o : Order.t)
| Navigate (href : string).

Record World := {
  localStorage : LocalStorage;
  sessionStorage : SessionStorage;
  param_mode : option string;        (* ?mode=... of the page's URL *)
  param_redirect : option string;    (* ?redirect=... *)
  location_href : string;            (* window.location.href *)
  clock : Z;                         (* Date.now () *)
  cart_items_container : bool;       (* the page has #cart-items-container *)
  effects : list Effect
}.

Definition with_localStorage (f : LocalStorage -> LocalStorage) (w : World) : World :=
  {| localStorage := f (localStorage w);
     sessionStorage := sessionStorage w;
     param_mode := param_mode w;
     param_redirect := param_redirect w;
     location_href := location_href w;
     clock := clock w;
     cart_items_container := cart_items_container w;
     effects := effects w |}.

Definition with_sessionStorage (f : SessionStorage -> SessionStorage) (w : World) : World :=
  {| localStorage := localStorage w;
     sessionStorage := f (sessionStorage w);
     param_mode := param_mode w;
     param_redirect := param_redirect w;
     location_href := location_href w;
     clock := clock w;
     cart_items_container := cart_items_container w;
     effects := effects w |}.

Definition with_effect (e : Effect) (w : World) : World :=
  {| localStorage := localStorage w;
     sessionStorage := sessionStorage w;
     param_mode := param_mode w;
     param_redirect := param_redirect w;
     location_href := location_href w;
     clock := clock w;
     cart_items_container := cart_items_container w;
     effects := (effects w ++ [e])%list |}.

Definition put_cart (v : option (text Cart)) (l : LocalStorage) : LocalStorage :=
  {| cart_slot := v; users_slot := users_slot l; orders_slot := orders_slot l |}.

Definition put_users (v : option (text (list User.t))) (l : LocalStorage) : LocalStorage :=
  {| cart_slot := cart_slot l; users_slot := v; orders_slot := orders_slot l |}.

Definition put_orders (v : option (text (list Order.t))) (l : LocalStorage) : LocalStorage :=
  {| cart_slot := cart_slot l; users_slot := users_slot l; orders_slot := v |}.

Definition put_session (v : option (text Session.t)) (s : SessionStorage) : SessionStorage :=
  {| session_slot := v; buy_now_slot := buy_now_slot s |}.

Definition put_buy_now (v : option (text BuyNowItem.t)) (s : SessionStorage) : SessionStorage :=
  {| session_slot := session_slot s; buy_now_slot := v |}.

(** *** Computations: state, and exceptions that keep the state *)

Definition JS (A : Type) : Type := World -> Completion A * World.

Definition ret {A} (a : A) : JS A := fun w => (Normal a, w).

Definition bind {A B} (m : JS A) (k : A -> JS B) : JS B :=
  fun w =>
    match m w with
    | (Normal a, w') => k a w'
    | (Throw e, w') => (Throw e, w')
    end.

Declare Scope js_scope.
Delimit Scope js_scope with js.
Notation "x <- c ;; k" := (bind c (fun x => k))
  (at level 100, c at next level, right associativity) : js_scope.
Notation "c ;; k" := (bind c (fun _ => k))
  (at level 100, right associativity) : js_scope.
Local Open Scope js_scope.

Definition complete {A} (c : Completion A) : JS A := fun w => (c, w).

Definition read {A} (f : World -> A) : JS A := fun w => (Normal (f w), w).

Definition write (f : World -> World) : JS unit := fun w => (Normal tt, f w).

Definition emit (e : Effect) : JS unit := write (with_effect e).

Definition now : JS ISOString := read (fun w => toISOString (clock w)).

Definition navigate (href : string) : JS unit := emit (Navigate href).

(** The value a computation ends with, and the world it leaves. *)
Definition result {A} (m : JS A) (w : World) : Completion A := fst (m w).
Definition after {A} (m : JS A) (w : World) : World := snd (m w).

(** The parsed content of the storage keys of a world, when each is
    JSON text. *)
Definition stored_cart (w : World) : option (text Cart) := cart_slot (localStorage w).
Definition stored_users (w : World) := users_slot (localStorage w).
Definition stored_orders (w : World) := orders_slot (localStorage w).
Definition stored_session (w : World) := session_slot (sessionStorage w).
Definition stored_buy_now (w : World) := buy_now_slot (sessionStorage w).

(* ===================================================================== *)
(** ** cart.js                                                            *)
(* ===================================================================== *)

Definition getCart : JS Cart :=
  cart <- read stored_cart ;;
  match cart with
  | Some t => if truthy_text cart then complete (JSON_parse t) else ret []
  | None => ret []
  end.

Definition getCartTotal : JS Q :=
  cart <- getCart ;;
  ret (fold_left
         (fun total item => (total + CartItem.price item * CartItem.quantity item)%Q)
         cart 0%Q).

Definition getCartItemCount : JS Q :=
  cart <- getCart ;;
  ret (fold_left (fun count item => (count + CartItem.quantity item)%Q) cart 0%Q).

Definition updateCartBadge : JS unit :=
  count <- getCartItemCount ;;
  emit (CartBadge count).

Definition saveCart (cart : Cart) : JS unit :=
  write (with_localStorage (put_cart (Some (JSON_stringify cart)))) ;;
  updateCartBadge.

Definition showNotification (message : string) : JS unit :=
  emit (Notification message).

(** The line a product, size and colour select: [item.id === product.id
    && item.size === size && item.color === color]. *)
Definition same_line (pid : Z) (size color : option string) (item : CartItem.t) : bool :=
  (CartItem.id item =? pid)%Z
  && strict_eq (CartItem.size item) size
  && strict_eq (CartItem.color item) color.

Definition addToCart (product : option Product.t) (quantity : Q)
    (size color : option string) : JS bool :=
  let invalid :=
    emit (ConsoleError "Invalid product provided to addToCart") ;;
    ret false in
  match product with
  | None => invalid
  | Some p =>
      match Product.id p with
      | None => invalid
      | Some pid =>
          if (pid =? 0)%Z then invalid
          else
            cart <- getCart ;;
            let existingItemIndex := findIndex (same_line pid size color) cart in
            cart <-
              (if (existingItemIndex >? -1)%Z then
                 ret (update_at (Z.to_nat existingItemIndex)
                        (fun item =>
                           CartItem.with_quantity
                             (CartItem.quantity item + quantity)%Q item)
                        cart)
               else
                 addedAt <- now ;;
                 ret (cart ++ [ {| CartItem.id := pid;
                                   CartItem.name := Product.name p;
                                   CartItem.price := Product.price p;
                                   CartItem.image := Product.image p;
                                   CartItem.quantity := quantity;
                                   CartItem.size := size;
                                   CartItem.color := color;
                                   CartItem.addedAt := addedAt |} ])%list) ;;
            saveCart cart ;;
            showNotification (Product.name p ++ " added to cart!") ;;
            ret true
      end
  end.

(** [`${item.id}-${item.size || "default"}-${item.color || "default"}`] *)
Definition cartItemId (item : CartItem.t) : string :=
  toString (CartItem.id item) ++ "-" ++ or_default (CartItem.size item) "default"
  ++ "-" ++ or_default (CartItem.color item) "default".

Definition renderCart : JS unit :=
  container <- read cart_items_container ;;
  if negb container then ret tt
  else
    cart <- getCart ;;
    if (Z.of_nat (length cart) =? 0)%Z then emit (CartRendered EmptyState)
    else
      let lines :=
        map (fun item =>
               (cartItemId item, (CartItem.price item * CartItem.quantity item)%Q))
            cart in
      subtotal <- getCartTotal ;;
      let shipping := if ltb 0 subtotal then 9.99%Q else 0%Q in
      let total := (subtotal + shipping)%Q in
      emit (CartRendered (CartContent lines subtotal shipping total)).

Definition removeFromCart (itemId : string) : JS unit :=
  cart <- getCart ;;
  let updatedCart := filter (fun item => negb (cartItemId item =? itemId)) cart in
  saveCart updatedCart ;;
  renderCart ;;
  showNotification "Item removed from cart".

Definition updateCartItemQuantity (itemId : string) (newQuantity : Q) : JS unit :=
  if ltb newQuantity 1 then removeFromCart itemId
  else
    cart <- getCart ;;
    let found item := cartItemId item =? itemId in
    match find found cart with
    | Some _ =>
        let cart := mutate_found found (CartItem.with_quantity newQuantity) cart in
        saveCart cart ;;
        renderCart
    | None => ret tt
    end.

Definition clearCart : JS unit :=
  write (with_localStorage (put_cart None)) ;;
  updateCartBadge.

(* ===================================================================== *)
(** ** auth.js                                                            *)
(* ===================================================================== *)

Definition getUsers : JS (list User.t) :=
  users <- read stored_users ;;
  match users with
  | Some t => if truthy_text users then complete (JSON_parse t) else ret []
  | None => ret []
  end.

Definition saveUsers (users : list User.t) : JS unit :=
  write (with_localStorage (put_users (Some (JSON_stringify users)))).

(** [getSession]: the session object, or null. *)
Definition getSession : JS (option Session.t) :=
  session <- read stored_session ;;
  match session with
  | Some t =>
      if truthy_text session then
        s <- complete (JSON_parse t) ;; ret (Some s)
      else ret None
  | None => ret None
  end.

Definition saveSession (session : Session.t) : JS unit :=
  write (with_sessionStorage (put_session (Some (JSON_stringify session)))).


Definition isLoggedIn : JS bool :=
  session <- getSession ;;
  ret (match session with Some _ => true | None => false end).

Definition getCurrentUser : JS (option User.t) :=
  session <- getSession ;;
  match session with
  | None => ret None
  | Some session =>
      users <- getUsers ;;
      ret (find (fun user => User.email user =? Session.email session) users)
  end.

Definition showAuthError (message : string) : JS unit :=
  emit (AuthError message).

(** [/^(?=.*[a-z])(?=.*[A-Z])(?=.*\d)(?=.*[\W_]).{8,}$/] *)
Definition passwordRegex : regex :=
  let ahead p := Lookahead (Cat (Star (Class dot)) (Class p)) in
  Both (ahead lowercase)
    (Both (ahead uppercase)
       (Both (ahead digit)
          (Both (ahead (fun c => not_word c || is_char "_" c))
             (AtLeast 8 (Class dot))))).

(** [urlParams.get ("redirect") || "../index.html"] *)
Definition redirect_target : JS string :=
  redirect <- read param_redirect ;;
  ret (or_default redirect "../index.html").

(** [handleRegister], given the values of the four inputs of the form
    ([None] for an input the page lacks). *)
Definition handleRegister (nameValue emailValue passwordValue confirmValue : option string)
    : JS unit :=
  let name := option_map trim nameValue in
  let email := option_map (fun v => toLowerCase (trim v)) emailValue in
  let password := passwordValue in
  let confirmPassword := confirmValue in
  match name, email, password with
  | Some name', Some email', Some password' =>
      if negb (truthy name) || negb (truthy email) || negb (truthy password)
         || negb (truthy confirmPassword)
      then showAuthError "Please fill in all fields"
      else if negb (strict_eq password confirmPassword)
      then showAuthError "Passwords do not match"
      else if negb (test passwordRegex password')
      then showAuthError
             "Password must be at least 8 characters long and include an uppercase letter, a lowercase letter, a number, and a special character."
      else
        users <- getUsers ;;
        if existsb (fun user => User.email user =? email') users
        then showAuthError "Email already registered"
        else
          ms <- read clock ;;
          createdAt <- now ;;
          let newUser :=
            {| User.id := toString ms;
               User.name := name';
               User.email := email';
               User.password := password';
               User.createdAt := createdAt |} in
          saveUsers (users ++ [newUser])%list ;;
          loginTime <- now ;;
          let session :=
            {| Session.email := User.email newUser;
               Session.name := User.name newUser;
               Session.loginTime := loginTime |} in
          saveSession session ;;
          redirect <- redirect_target ;;
          navigate redirect
  | _, _, _ => showAuthError "Please fill in all fields"
  end.

(** [handleLogin], given the values of the two inputs of the form. *)
Definition handleLogin (emailValue passwordValue : option string) : JS unit :=
  let email := option_map (fun v => toLowerCase (trim v)) emailValue in
  let password := passwordValue in
  match email, password with
  | Some email', Some password' =>
      if negb (truthy email) || negb (truthy password)
      then showAuthError "Please enter email and password"
      else
        users <- getUsers ;;
        let user := find (fun u => User.email u =? email') users in
        match user with
        | None => showAuthError "Invalid email or password"
        | Some user =>
            if negb (User.password user =? password')
            then showAuthError "Invalid email or password"
            else
              loginTime <- now ;;
              let session :=
                {| Session.email := User.email user;
                   Session.name := User.name user;
                   Session.loginTime := loginTime |} in
              saveSession session ;;
              redirect <- redirect_target ;;
              navigate redirect
        end
  | _, _ => showAuthError "Please enter email and password"
  end.


(* ===================================================================== *)
(** ** products.js: the buy-now item                                      *)
(* ===================================================================== *)

(** [buyNowFromModal], once the product was looked up in the catalogue
    and the quantity, size and colour were read from the modal. *)
Definition buyNowFromModal (product : option Product.t) (quantity : Q)
    (size color : option string) : JS unit :=
  match product with
  | None => ret tt
  | Some p =>
      let buyNowItem :=
        {| BuyNowItem.product := p;
           BuyNowItem.quantity := quantity;
           BuyNowItem.size := size;
           BuyNowItem.color := color;
           BuyNowItem.isBuyNow := true |} in
      write (with_sessionStorage (put_buy_now (Some (JSON_stringify buyNowItem)))) ;;
      navigate "checkout.html?mode=buy-now"
  end.

(* ===================================================================== *)
(** ** checkout.js                                                        *)
(* ===================================================================== *)

(** [JSON.parse (sessionStorage.getItem ("buy-now-item") || fallback)],
    where the fallback text parses to [dflt]. *)
Definition parse_buy_now_or {A} (some : BuyNowItem.t -> A) (dflt : A) : JS A :=
  raw <- read stored_buy_now ;;
  match raw with
  | Some t =>
      if truthy_text raw then b <- complete (JSON_parse t) ;; ret (some b)
      else ret dflt
  | None => ret dflt
  end.

Definition renderBuyNowCheckout : JS unit :=
  buyNowItem <- parse_buy_now_or Some None ;;
  match buyNowItem with
  | None => navigate "shop.html"
  | Some buyNowItem =>
      let subtotal :=
        (Product.price (BuyNowItem.product buyNowItem)
         * BuyNowItem.quantity buyNowItem)%Q in
      let shipping := 9.99%Q in
      let tax := (subtotal * 0.08)%Q in
      let total := (subtotal + shipping + tax)%Q in
      emit (CheckoutRendered "Buy Now Checkout" subtotal shipping tax total)
  end.

Definition renderCartCheckout : JS unit :=
  cart <- getCart ;;
  if (Z.of_nat (length cart) =? 0)%Z then navigate "cart.html"
  else
    subtotal <- getCartTotal ;;
    let shipping := 9.99%Q in
    let tax := (subtotal * 0.08)%Q in
    let total := (subtotal + shipping + tax)%Q in
    emit (CheckoutRendered "Cart Checkout" subtotal shipping tax total).

Definition initCheckout : JS unit :=
  loggedIn <- isLoggedIn ;;
  if negb loggedIn then
    currentUrl <- read (fun w => encodeURIComponent (location_href w)) ;;
    navigate ("login.html?redirect=" ++ currentUrl)
  else
    mode <- read param_mode ;;
    if strict_eq mode (Some "buy-now") then renderBuyNowCheckout
    else renderCartCheckout.

(** [/^[^\s@]+@[^\s@]+\.[^\s@]+$/] *)
Definition emailRegex : regex :=
  let plain := Class (fun c => negb (is_space c || is_char "@" c)) in
  Cat (Plus plain)
    (Cat (Class (is_char "@"))
       (Cat (Plus plain) (Cat (Class (is_char ".")) (Plus plain)))).

Definition isValidEmail (email : string) : bool := test emailRegex email.

Definition showCheckoutError (errors : list string) : JS unit :=
  emit (CheckoutError errors).

(** The messages [validateCheckoutForm] collects. *)
Definition checkout_errors (data : Customer.t) : list string :=
  let s := Customer.shipping data in
  let p := Customer.payment data in
  let falsy v := negb (truthy v) in
  let when (b : bool) (msg : string) := if b then [msg] else [] in
  (when (falsy (Customer.email data)
         || negb (isValidEmail (or_default (Customer.email data) "")))
        "Please enter a valid email address"
   ++ when (falsy (Customer.firstName s) || falsy (Customer.lastName s))
        "Please enter your full name"
   ++ when (falsy (Customer.address s) || falsy (Customer.city s)
            || falsy (Customer.zip s))
        "Please enter your complete address"
   ++ when (falsy (Customer.phone s)) "Please enter your phone number"
   ++ when (falsy (Customer.cardNumber p)
            || (String.length (or_default (Customer.cardNumber p) "") <? 16)%nat)
        "Please enter a valid card number"
   ++ when (falsy (Customer.cardName p)) "Please enter the name on your card"
   ++ when (falsy (Customer.expiry p) || falsy (Customer.cvv p))
        "Please enter card expiry and CVV")%list.

Definition validateCheckoutForm (data : Customer.t) : JS bool :=
  let errors := checkout_errors data in
  if (0 <? Z.of_nat (length errors))%Z then
    showCheckoutError errors ;; ret false
  else ret true.

Definition generateOrderId : JS string :=
  ms <- read clock ;;
  ret ("ORD-" ++ toString36 ms).

Definition saveOrder (order : Order.t) : JS unit :=
  raw <- read stored_orders ;;
  orders <- match raw with
            | Some t => if truthy_text raw then complete (JSON_parse t) else ret []
            | None => ret []
            end ;;
  write (with_localStorage
           (put_orders (Some (JSON_stringify (orders ++ [order])%list)))).

Definition showOrderSuccess (order : Order.t) : JS unit :=
  emit (OrderSuccess order).

(** [item.price * item.quantity] for an element of [order.items]; both
    properties of the empty object are undefined, and their product is
    [NaN]. *)
Definition price_times_quantity (item : OrderItem) : Number :=
  match item with
  | CartLine i => Num (CartItem.price i * CartItem.quantity i)
  | BuyNowLine b => Num (Product.price (BuyNowItem.product b) * BuyNowItem.quantity b)
  | EmptyObject => NaN
  end.

Definition processOrder (orderData : Customer.t) : JS unit :=
  mode <- read param_mode ;;
  id <- generateOrderId ;;
  date <- now ;;
  items <- (if strict_eq mode (Some "buy-now")
            then item <- parse_buy_now_or BuyNowLine EmptyObject ;; ret [item]
            else cart <- getCart ;; ret (map CartLine cart)) ;;
  let subtotal :=
    fold_left (fun sum item => add sum (price_times_quantity item)) items (Num 0) in
  let shipping := Num 9.99 in
  let tax := mul subtotal (Num 0.08) in
  let order :=
    {| Order.id := id;
       Order.date := date;
       Order.customer := orderData;
       Order.items := items;
       Order.mode := or_default mode "cart";
       Order.status := "confirmed";
       Order.subtotal := subtotal;
       Order.shipping := shipping;
       Order.tax := tax;
       Order.total := add (add subtotal shipping) tax |} in
  saveOrder order ;;
  (if negb (strict_eq mode (Some "buy-now")) then clearCart else ret tt) ;;
  write (with_sessionStorage (put_buy_now None)) ;;
  showOrderSuccess order.

Definition handleCheckoutSubmit (orderData : Customer.t) : JS unit :=
  valid <- validateCheckoutForm orderData ;;
  if negb valid then ret tt
  else processOrder orderData.

(* ===================================================================== *)
(** ** Vocabulary of the specification                                    *)
(* ===================================================================== *)

(** What reading a storage key through [JSON.parse] gives: the value for
    JSON text, [empty] for a missing key or the empty string, and a
    [SyntaxError] for any other string. *)
Definition parsed {A} (t : option (text A)) (empty : A) : Completion A :=
  match t with
  | Some (Json v) => Normal v
  | Some (Garbled s) => if truthy_string s then Throw SyntaxError else Normal empty
  | None => Normal empty
  end.

(** The identity of a cart line: product id, size and colour. *)
Definition line_key (item : CartItem.t) : Z * option string * option string :=
  (CartItem.id item, CartItem.size item, CartItem.color item).






(** [item.quantity += quantity] *)
Definition bump (quantity : Q) (item : CartItem.t) : CartItem.t :=
  CartItem.with_quantity (CartItem.quantity item + quantity)%Q item.

(** The line [addToCart] pushes for a product. *)
Definition new_line (p : Product.t) (pid : Z) (quantity : Q)
    (size color : option string) (addedAt : ISOString) : CartItem.t :=
  {| CartItem.id := pid;
     CartItem.name := Product.name p;
     CartItem.price := Product.price p;
     CartItem.image := Product.image p;
     CartItem.quantity := quantity;
     CartItem.size := size;
     CartItem.color := color;
     CartItem.addedAt := addedAt |}.


(** The order log as [saveOrder] reads it. *)
Definition order_log (w : World) : Completion (list Order.t) :=
  parsed (stored_orders w) [].

(** A run from [w] to [w'] produced the order [o]: the log of [w'] is the
    log of [w] with [o] appended. *)
Definition order_produced (w w' : World) (o : Order.t) : Prop :=
  exists orders,
    order_log w = Normal orders /\
    stored_orders w' = Some (Json (orders ++ [o])%list).

Definition buy_now_mode (w : World) : bool := strict_eq (param_mode w) (Some "buy-now").

(** The cart [addToCart] saves: the first line with the key gets the
    quantity added, and a cart without such a line gets a new last line. *)
Definition merged (p : Product.t) (pid : Z) (quantity : Q)
    (size color : option string) (addedAt : ISOString) (cart : Cart) : Cart :=
  if existsb (same_line pid size color) cart
  then mutate_found (same_line pid size color) (bump quantity) cart
  else (cart ++ [new_line p pid quantity size color addedAt])%list.

(** The items [processOrder] takes for the order: the buy-now item (or
    the empty object) in buy-now mode, the cart otherwise. *)
Definition order_items (w : World) : Completion (list OrderItem) :=
  if buy_now_mode w then
    match stored_buy_now w with
    | Some (Json b) => Normal [BuyNowLine b]
    | Some (Garbled s) =>
        if truthy_string s then Throw SyntaxError else Normal [EmptyObject]
    | None => Normal [EmptyObject]
    end
  else
    match parsed (stored_cart w) [] with
    | Normal cart => Normal (map CartLine cart)
    | Throw e => Throw e
    end.

Definition subtotal_of (items : list OrderItem) : Number :=
  fold_left (fun sum item => add sum (price_times_quantity item)) items (Num 0).

(** The order [processOrder] builds in [w] from the form and the items. *)
Definition new_order (orderData : Customer.t) (w : World) (items : list OrderItem)
    : Order.t :=
  {| Order.id := ("ORD-" ++ toString36 (clock w))%string;
     Order.date := toISOString (clock w);
     Order.customer := orderData;
     Order.items := items;
     Order.mode := or_default (param_mode w) "cart";
     Order.status := "confirmed";
     Order.subtotal := subtotal_of items;
     Order.shipping := Num 9.99;
     Order.tax := mul (subtotal_of items) (Num 0.08);
     Order.total :=
       add (add (subtotal_of items) (Num 9.99)) (mul (subtotal_of items) (Num 0.08)) |}.

Definition with_orders (t : option (text (list Order.t))) (w : World) : World :=
  with_localStorage (put_orders t) w.

(** The world [processOrder] leaves once the order [o] is appended to the
    log [orders]. *)
Definition placed (o : Order.t) (orders : list Order.t) (w : World) : World :=
  let w1 := with_orders (Some (Json (orders ++ [o])%list)) w in
  let w2 := if buy_now_mode w then w1
            else with_effect (CartBadge 0) (with_localStorage (put_cart None) w1) in
  with_effect (OrderSuccess o) (with_sessionStorage (put_buy_now None) w2).

(** The e-mail address as the forms take it: trimmed, in lower case. *)
Definition normalised (email : string) : string := toLowerCase (trim email).

(** The checks of [handleRegister] that come before the look-up of the
    e-mail address: every field filled in, both passwords the same, the
    password complex enough. *)
Definition fields_accepted (name email password confirmPassword : string) : bool :=
  truthy_string (trim name) && truthy_string (normalised email)
  && truthy_string password && truthy_string confirmPassword
  && (password =? confirmPassword)%string
  && test passwordRegex password.

(** The session [handleLogin] and [handleRegister] save for a user. *)
Definition session_of (user : User.t) (w : World) : Session.t :=
  {| Session.email := User.email user;
     Session.name := User.name user;
     Session.loginTime := toISOString (clock w) |}.

(** The world after a successful login or registration. *)
Definition logged_in (user : User.t) (w : World) : World :=
  with_effect (Navigate (or_default (param_redirect w) "../index.html"))
    (with_sessionStorage (put_session (Some (Json (session_of user w)))) w).

(** The user [handleRegister] creates. *)
Definition new_user (name email password : string) (w : World) : User.t :=
  {| User.id := toString (clock w);
     User.name := trim name;
     User.email := normalised email;
     User.password := password;
     User.createdAt := toISOString (clock w) |}.

(** The messages of [handleRegister] for fields it does not accept. *)
Definition field_messages : list string :=
  ["Please fill in all fields";
   "Passwords do not match";
   "Password must be at least 8 characters long and include an uppercase letter, a lowercase letter, a number, and a special character."].

(** *** Sample data *)

Definition empty_localStorage : LocalStorage :=
  {| cart_slot := None; users_slot := None; orders_slot := None |}.

Definition empty_sessionStorage : SessionStorage :=
  {| session_slot := None; buy_now_slot := None |}.

(** A browser with empty storage, on the cart page. *)
Definition fresh_world : World :=
  {| localStorage := empty_localStorage;
     sessionStorage := empty_sessionStorage;
     param_mode := None;
     param_redirect := None;
     location_href := "https://maglothes.example/pages/cart.html";
     clock := 1700000000000;
     cart_items_container := true;
     effects := [] |}.

Definition shirt : Product.t :=
  {| Product.id := Some 1;
     Product.name := "Linen Shirt";
     Product.description := "A shirt";
     Product.category := "men";
     Product.subcategory := "shirts";
     Product.price := 20;
     Product.originalPrice := None;
     Product.onSale := false;
     Product.featured := true;
     Product.image := "shirt.jpg";
     Product.sizes := ["M"; "L"];
     Product.colors := ["White"] |}.

(** A catalogue entry that costs nothing. *)
Definition free_sample : Product.t :=
  {| Product.id := Some 7;
     Product.name := "Sticker";
     Product.description := "A free sticker";
     Product.category := "accessories";
     Product.subcategory := "";
     Product.price := 0;
     Product.originalPrice := None;
     Product.onSale := false;
     Product.featured := false;
     Product.image := "sticker.jpg";
     Product.sizes := [];
     Product.colors := [] |}.

Definition customer : Customer.t :=
  {| Customer.email := Some "a@b.com";
     Customer.shipping :=
       {| Customer.firstName := Some "Ada";
          Customer.lastName := Some "Lovelace";
          Customer.address := Some "1 Mill Road";
          Customer.city := Some "London";
          Customer.state := Some "";
          Customer.zip := Some "N1";
          Customer.country := Some "UK";
          Customer.phone := Some "555-0100" |};
     Customer.payment :=
       {| Customer.cardNumber := Some "4111111111111111";
          Customer.cardName := Some "Ada Lovelace";
          Customer.expiry := Some "12/30";
          Customer.cvv := Some "123" |} |}.

Definition with_cart (t : option (text Cart)) (w : World) : World :=
  with_localStorage (put_cart t) w.

Definition with_users (t : option (text (list User.t))) (w : World) : World :=
  with_localStorage (put_users t) w.

Definition with_buy_now (t : option (text BuyNowItem.t)) (w : World) : World :=
  with_sessionStorage (put_buy_now t) w.

Definition with_mode (mode : option string) (w : World) : World :=
  {| localStorage := localStorage w;
     sessionStorage := sessionStorage w;
     param_mode := mode;
     param_redirect := param_redirect w;
     location_href := location_href w;
     clock := clock w;
     cart_items_container := cart_items_container w;
     effects := effects w |}.

(** [getCartTotal] on a given cart. *)
Definition cart_total (cart : Cart) : Q :=
  fold_left
    (fun total item => (total + CartItem.price item * CartItem.quantity item)%Q)
    cart 0%Q.

(** [getCartItemCount] on a given cart. *)
Definition item_count (cart : Cart) : Q :=
  fold_left (fun count item => (count + CartItem.quantity item)%Q) cart 0%Q.

(** The world after [saveCart (cart)]: the cart key holds the cart and
    the badge shows its count. *)
Definition saved (cart : Cart) (w : World) : World :=
  with_effect (CartBadge (item_count cart)) (with_cart (Some (Json cart)) w).

(** The cart with two shirts, as [addToCart] leaves it. *)
Definition two_shirts : Cart :=
  [new_line shirt 1 2 None None (toISOString 1700000000000)].

(** A cart whose only line is the free sample. *)
Definition one_sticker : Cart :=
  [new_line free_sample 7 1 None None (toISOString 1700000000000)].

Definition jacket : Product.t :=
  {| Product.id := Some 2;
     Product.name := "Wool Jacket";
     Product.description := "A jacket";
     Product.category := "women";
     Product.subcategory := "jackets";
     Product.price := 50;
     Product.originalPrice := Some 80%Q;
     Product.onSale := true;
     Product.featured := false;
     Product.image := "jacket.jpg";
     Product.sizes := ["S"; "M"];
     Product.colors := ["Black"] |}.

(** One jacket, bought at once. *)
Definition one_jacket : BuyNowItem.t :=
  {| BuyNowItem.product := jacket;
     BuyNowItem.quantity := 1;
     BuyNowItem.size := None;
     BuyNowItem.color := None;
     BuyNowItem.isBuyNow := true |}.

Definition with_session (t : option (text Session.t)) (w : World) : World :=
  with_sessionStorage (put_session t) w.

(** Ada's session. *)
Definition ada_session : Session.t :=
  {| Session.email := "a@b.com";
     Session.name := "Ada";
     Session.loginTime := toISOString 1700000000000 |}.

(** Ada, logged in, opens the checkout page with no cart. *)
Definition empty_cart_checkout : World :=
  with_session (Some (Json ada_session)) fresh_world.

(** Ada, logged in, opens the checkout page in buy-now mode with nothing
    pending. *)
Definition nothing_pending_checkout : World :=
  with_mode (Some "buy-now") empty_cart_checkout.

(** A browser whose cart key holds text that is not JSON. *)
Definition garbled_cart : World := with_cart (Some (Garbled "{not json")) fresh_world.

(** The checkout page in cart mode, two shirts in the cart. *)
Definition cart_checkout : World := with_cart (Some (Json two_shirts)) fresh_world.

(** The checkout page in buy-now mode, one jacket pending and two shirts
    in the cart. *)
Definition buy_now_checkout : World :=
  with_mode (Some "buy-now") (with_buy_now (Some (Json one_jacket)) cart_checkout).

(** The checkout page in cart mode, the free sample in the cart. *)
Definition free_checkout : World := with_cart (Some (Json one_sticker)) fresh_world.

Definition ada : User.t :=
  {| User.id := "1700000000000";
     User.name := "Ada";
     User.email := "a@b.com";
     User.password := "Passw0rd!";
     User.createdAt := toISOString 1700000000000 |}.


(** The login and register pages once Ada has an account. *)
Definition ada_registered : World := with_users (Some (Json [ada])) fresh_world.

(* ===================================================================== *)
(** ** products.js: the catalogue                                         *)
(* ===================================================================== *)

(** What [fetch ("./data/products.json")] and [response.json ()] come to:
    the request or the parsing fails, the response is not ok, or the body
    is an object whose [products] property may be missing. *)
Inductive Fetched :=
| FetchFailed
| NotOk
| Body (products : option (list Product.t)).

(** The module-level variables of products.js, and what it wrote to the
    console. *)
Record Catalogue := {
  productsCache : option (list Product.t);
  featuredProductsCache : option (list Product.t);
  activeCategory : option string;
  console : list string
}.

Definition set_productsCache (v : list Product.t) (c : Catalogue) : Catalogue :=
  {| productsCache := Some v;
     featuredProductsCache := featuredProductsCache c;
     activeCategory := activeCategory c;
     console := console c |}.

Definition set_featuredProductsCache (v : list Product.t) (c : Catalogue) : Catalogue :=
  {| productsCache := productsCache c;
     featuredProductsCache := Some v;
     activeCategory := activeCategory c;
     console := console c |}.

Definition console_error (msg : string) (c : Catalogue) : Catalogue :=
  {| productsCache := productsCache c;
     featuredProductsCache := featuredProductsCache c;
     activeCategory := activeCategory c;
     console := (console c ++ [msg])%list |}.

(** [getAllProducts]; [fetched] is what the network answers if it is
    asked.  A cached array counts as present even when it is empty. *)
Definition getAllProducts (fetched : Fetched) (c : Catalogue)
    : list Product.t * Catalogue :=
  match productsCache c with
  | Some cached => (cached, c)
  | None =>
      match fetched with
      | Body products =>
          let loaded := match products with Some ps => ps | None => [] end in
          (loaded, set_productsCache loaded c)
      | NotOk => ([], console_error "Error loading products: Failed to load products" c)
      | FetchFailed => ([], console_error "Error loading products:" c)
      end
  end.

Definition getFeaturedProducts (fetched : Fetched) (c : Catalogue)
    : list Product.t * Catalogue :=
  match featuredProductsCache c with
  | Some cached => (cached, c)
  | None =>
      let (products, c) := getAllProducts fetched c in
      let featured := filter Product.featured products in
      (featured, set_featuredProductsCache featured c)
  end.

(** [p.id === id] for a number [id]. *)
Definition has_id (id : Z) (p : Product.t) : bool :=
  match Product.id p with
  | Some pid => (pid =? id)%Z
  | None => false
  end.

Definition getProductById (fetched : Fetched) (id : Z) (c : Catalogue)
    : option Product.t * Catalogue :=
  let (products, c) := getAllProducts fetched c in
  (find (has_id id) products, c).

Definition getProductsByCategory (fetched : Fetched) (category : string) (c : Catalogue)
    : list Product.t * Catalogue :=
  let (products, c) := getAllProducts fetched c in
  if category =? "sale" then (filter Product.onSale products, c)
  else (filter (fun p => Product.category p =? category) products, c).

(** [s.includes (sub)] *)
Fixpoint includes (sub s : string) : bool :=
  prefix sub s
  || match s with
     | String _ s' => includes sub s'
     | EmptyString => false
     end.

(** The products the search box shows for what was typed. *)
Definition search (fetched : Fetched) (typed : string) (c : Catalogue)
    : list Product.t * Catalogue :=
  let searchTerm := toLowerCase typed in
  let (products, c) := getAllProducts fetched c in
  (filter
     (fun p =>
        let matchedCategory :=
          if strict_eq (activeCategory c) (Some "all") then true
          else strict_eq (Some (Product.category p)) (activeCategory c) in
        matchedCategory
        && (includes searchTerm (toLowerCase (Product.name p))
            || includes searchTerm (toLowerCase (Product.description p))
            || includes searchTerm (toLowerCase (Product.category p))))
     products, c).

(** [updateModalQuantity (change)], from the number the modal shows to
    the number it shows next. *)
Definition updateModalQuantity (shown change : Z) : Z :=
  let quantity := shown + change in
  let quantity := if (quantity <? 1)%Z then 1 else quantity in
  let quantity := if (quantity >? 10)%Z then 10 else quantity in
  quantity.

(** [parseInt (document.getElementById ("modal-quantity")?.textContent || "1")],
    for a modal that shows an integer or is not on the page. *)
Definition modal_quantity (shown : option Z) : Z :=
  match shown with
  | Some quantity => quantity
  | None => 1
  end.

(** [addToCartFromModal]; the size and colour are the selected options. *)
Definition addToCartFromModal (fetched : Fetched) (productId : Z) (shown : option Z)
    (size color : option string) (c : Catalogue) : JS Catalogue :=
  let (product, c) := getProductById fetched productId c in
  match product with
  | None => ret c
  | Some _ =>
      let quantity := inject_Z (modal_quantity shown) in
      (_ <- addToCart product quantity size color ;; ret c)%js
  end.

Definition quickAddToCart (fetched : Fetched) (productId : Z) (c : Catalogue)
    : JS Catalogue :=
  let (product, c) := getProductById fetched productId c in
  match product with
  | Some _ => (_ <- addToCart product 1 None None ;; ret c)%js
  | None => ret c
  end.

Definition buyNow (fetched : Fetched) (productId : Z) (c : Catalogue) : JS Catalogue :=
  let (product, c) := getProductById fetched productId c in
  match product with
  | None => ret c
  | Some p =>
      let buyNowItem :=
        {| BuyNowItem.product := p;
           BuyNowItem.quantity := 1;
           BuyNowItem.size := None;
           BuyNowItem.color := None;
           BuyNowItem.isBuyNow := true |} in
      (write (with_sessionStorage (put_buy_now (Some (JSON_stringify buyNowItem)))) ;;
       href <- read location_href ;;
       (if includes "index.html" href
        then navigate "pages/checkout.html?mode=buy-now"
        else navigate "checkout.html?mode=buy-now") ;;
       ret c)%js
  end.

(* ===================================================================== *)
(** ** theme.js                                                           *)
(* ===================================================================== *)

Definition DARK_THEME : string := "dark".
Definition LIGHT_THEME : string := "light".

(** The theme key of [localStorage] and what the page shows of the
    theme: the [dark] class of the document, and the two icons of the
    toggle button when the page has one. *)
Record ThemePage := {
  theme_slot : option string;      (* "fashion-store-theme" *)
  html_dark : bool;
  theme_toggle : bool;             (* the page has #theme-toggle *)
  sun_hidden : bool;
  moon_hidden : bool
}.

Definition applyTheme (theme : string) (t : ThemePage) : ThemePage :=
  {| theme_slot := Some theme;
     html_dark := theme =? DARK_THEME;
     theme_toggle := theme_toggle t;
     sun_hidden := sun_hidden t;
     moon_hidden := moon_hidden t |}.

Definition updateThemeToggleIcon (theme : string) (t : ThemePage) : ThemePage :=
  if negb (theme_toggle t) then t
  else
    {| theme_slot := theme_slot t;
       html_dark := html_dark t;
       theme_toggle := theme_toggle t;
       sun_hidden := negb (theme =? DARK_THEME);
       moon_hidden := theme =? DARK_THEME |}.

Definition getCurrentTheme (t : ThemePage) : string :=
  or_default (theme_slot t) LIGHT_THEME.

Definition isDarkMode (t : ThemePage) : bool := getCurrentTheme t =? DARK_THEME.

Definition initTheme (t : ThemePage) : ThemePage :=
  let savedTheme := or_default (theme_slot t) LIGHT_THEME in
  updateThemeToggleIcon savedTheme (applyTheme savedTheme t).

Definition toggleTheme (t : ThemePage) : ThemePage :=
  let currentTheme := or_default (theme_slot t) LIGHT_THEME in
  let newTheme := if currentTheme =? DARK_THEME then LIGHT_THEME else DARK_THEME in
  updateThemeToggleIcon newTheme (applyTheme newTheme t).

(* ===================================================================== *)
(** ** More vocabulary                                                    *)
(* ===================================================================== *)

(** When a regular expression matches a whole string. *)
Inductive matches : regex -> string -> Prop :=
| matches_eps : matches Eps ""
| matches_class p c : p c = true -> matches (Class p) (String c "")
| matches_cat r1 r2 s1 s2 :
    matches r1 s1 -> matches r2 s2 -> matches (Cat r1 r2) (s1 ++ s2)
| matches_alt_l r1 r2 s : matches r1 s -> matches (Alt r1 r2) s
| matches_alt_r r1 r2 s : matches r2 s -> matches (Alt r1 r2) s
| matches_star_nil r : matches (Star r) ""
| matches_star_app r s1 s2 :
    matches r s1 -> matches (Star r) s2 -> matches (Star r) (s1 ++ s2)
| matches_both r1 r2 s : matches r1 s -> matches r2 s -> matches (Both r1 r2) s.

(** Every character, and some character, of a string is in a class. *)
Fixpoint every (p : ascii -> bool) (s : string) : bool :=
  match s with
  | EmptyString => true
  | String c s' => p c && every p s'
  end.

Fixpoint some (p : ascii -> bool) (s : string) : bool :=
  match s with
  | EmptyString => false
  | String c s' => p c || some p s'
  end.

(** A character that is neither a word character nor a digit, or is the
    underscore: the class [[\W_]]. *)
Definition special (c : ascii) : bool := not_word c || is_char "_" c.

(** The password policy, spelled out: at least eight characters, none of
    them a line break, with a lower-case letter, an upper-case letter, a
    digit and a special character among them. *)
Definition password_policy (password : string) : bool :=
  (8 <=? String.length password)%nat
  && every dot password
  && some lowercase password
  && some uppercase password
  && some digit password
  && some special password.

(** A character other than white space and the at sign: [[^\s@]]. *)
Definition plain (c : ascii) : bool := negb (is_space c || is_char "@" c).


(** [parseInt (s, 36)] on upper-case digits. *)
Definition value36 (c : ascii) : Z :=
  let n := Z.of_nat (nat_of_ascii c) in
  if (n <? 58)%Z then n - 48 else n - 55.

Fixpoint parseInt36_from (acc : Z) (s : string) : Z :=
  match s with
  | EmptyString => acc
  | String c s' => parseInt36_from (acc * 36 + value36 c) s'
  end.

Definition parseInt36 (s : string) : Z := parseInt36_from 0 s.

(** *** The controls of the pages *)

(** What a visitor can click: "Add to Cart" on a product card, "Add to
    Cart" in the product modal after some clicks on its minus and plus
    buttons ([true] is plus), the minus, plus and Remove buttons of a line
    of the cart page, and "Place Order" on the checkout page. *)
Inductive Control :=
| QuickAdd (fetched : Fetched) (productId : Z)
| ModalAdd (fetched : Fetched) (productId : Z) (clicks : list bool)
    (size color : option string)
| ClickMinus (item : CartItem.t)
| ClickPlus (item : CartItem.t)
| ClickRemove (item : CartItem.t)
| PlaceOrder (orderData : Customer.t).

(** The number the modal shows after the clicks; it opens showing 1. *)
Definition modal_after (clicks : list bool) : Z :=
  fold_left
    (fun (shown : Z) (plus : bool) => updateModalQuantity shown (if plus then 1 else -1))
    clicks 1.

Definition click (control : Control) (c : Catalogue) : JS Catalogue :=
  (match control with
   | QuickAdd fetched productId => quickAddToCart fetched productId c
   | ModalAdd fetched productId clicks size color =>
       addToCartFromModal fetched productId (Some (modal_after clicks)) size color c
   | ClickMinus item =>
       updateCartItemQuantity (cartItemId item) (CartItem.quantity item - 1)%Q ;; ret c
   | ClickPlus item =>
       updateCartItemQuantity (cartItemId item) (CartItem.quantity item + 1)%Q ;; ret c
   | ClickRemove item => removeFromCart (cartItemId item) ;; ret c
   | PlaceOrder orderData => handleCheckoutSubmit orderData ;; ret c
   end)%js.

(** The buttons of a cart line exist for the lines the cart page drew,
    which are the lines of the stored cart. *)
Definition shown (control : Control) (w : World) : Prop :=
  match control with
  | ClickMinus item | ClickPlus item | ClickRemove item =>
      exists cart, result getCart w = Normal cart /\ In item cart
  | _ => True
  end.

(** The catalogue variables after a click. *)
Definition catalogue_after (control : Control) (c : Catalogue) (w : World) : Catalogue :=
  match result (click control c) w with
  | Normal c' => c'
  | Throw _ => c
  end.

(** The states a visitor can bring about with the controls, from a
    browser without a cart key. *)
Inductive visited : Catalogue -> World -> Prop :=
| visited_fresh c w : stored_cart w = None -> visited c w
| visited_click c w control :
    visited c w -> shown control w ->
    visited (catalogue_after control c w) (after (click control c) w)
| visited_elsewhere c c' w w' :
    visited c w -> stored_cart w' = stored_cart w -> visited c' w'.

(** A whole number of at least one. *)
Definition whole (q : Q) : Prop :=
  exists n : Z, (1 <= n)%Z /\ (q == inject_Z n)%Q.

Definition whole_quantity (item : CartItem.t) : Prop := whole (CartItem.quantity item).

(** The stored cart is readable and every line has a whole quantity. *)
Definition whole_quantities (w : World) : Prop :=
  exists cart, result getCart w = Normal cart /\ Forall whole_quantity cart.



(* ===================================================================== *)
(** ** Running the scripts                                                *)
(* ===================================================================== *)

Local Open Scope list_scope.

Lemma bind_normal {A B} {m : JS A} (k : A -> JS B) {w a w'} :
  m w = (Normal a, w') -> bind m k w = k a w'.
Proof. intros H. unfold bind. now rewrite H. Qed.



(** Reading a key does not change the world, and gives [parsed]. *)
Lemma getCart_run w : getCart w = (parsed (stored_cart w) [], w).
Proof.
  unfold getCart, bind, read, parsed.
  destruct (stored_cart w) as [[c|s]|]; simpl; try reflexivity.
  destruct (truthy_string s); reflexivity.
Qed.

Lemma getUsers_run w : getUsers w = (parsed (stored_users w) [], w).
Proof.
  unfold getUsers, bind, read, parsed.
  destruct (stored_users w) as [[c|s]|]; simpl; try reflexivity.
  destruct (truthy_string s); reflexivity.
Qed.

Lemma getSession_run w :
  getSession w =
  (match stored_session w with
   | Some (Json s) => Normal (Some s)
   | Some (Garbled s) => if truthy_string s then Throw SyntaxError else Normal None
   | None => Normal None
   end, w).
Proof.
  unfold getSession, bind, read.
  destruct (stored_session w) as [[c|s]|]; simpl; try reflexivity.
  destruct (truthy_string s); reflexivity.
Qed.

Lemma result_getCart w : result getCart w = parsed (stored_cart w) [].
Proof. unfold result. now rewrite getCart_run. Qed.

Lemma getCart_normal {w cart} :
  result getCart w = Normal cart -> getCart w = (Normal cart, w).
Proof. rewrite result_getCart, getCart_run. now intros ->. Qed.

Lemma saveCart_run cart w : saveCart cart w = (Normal tt, saved cart w).
Proof. reflexivity. Qed.

(** [renderCart] only writes to the page. *)
Lemma renderCart_frame w :
  localStorage (after renderCart w) = localStorage w /\
  sessionStorage (after renderCart w) = sessionStorage w.
Proof.
  unfold after, renderCart, bind, read.
  destruct (cart_items_container w); simpl; [|split; reflexivity].
  rewrite getCart_run.
  destruct (parsed (stored_cart w) []) as [cart|e]; [|split; reflexivity].
  destruct (Z.of_nat (length cart) =? 0)%Z; [split; reflexivity|].
  unfold getCartTotal, bind. rewrite getCart_run.
  destruct (parsed (stored_cart w) []); split; reflexivity.
Qed.

Lemma renderCart_normal w cart :
  result getCart w = Normal cart -> result renderCart w = Normal tt.
Proof.
  intros H. unfold result, renderCart, bind, read.
  destruct (cart_items_container w); simpl; [|reflexivity].
  rewrite (getCart_normal H).
  destruct (Z.of_nat (length cart) =? 0)%Z; [reflexivity|].
  unfold getCartTotal, bind. now rewrite (getCart_normal H).
Qed.

(* ===================================================================== *)
(** ** Arrays: the first match                                            *)
(* ===================================================================== *)

Section FirstMatch.
Context {A : Type} (f : A -> bool) (g : A -> A).

Lemma findIndex_from_bounds (l : list A) i :
  findIndex_from f l i = -1 \/ i <= findIndex_from f l i.
Proof.
  revert i. induction l as [|x l IH]; intros i; simpl.
  - now left.
  - destruct (f x); [right; lia|].
    destruct (IH (i + 1)) as [H|H]; [now left|right; lia].
Qed.

Lemma findIndex_from_found (l : list A) i :
  0 <= i -> (findIndex_from f l i >? -1) = existsb f l.
Proof.
  revert i. induction l as [|x l IH]; intros i Hi; simpl.
  - reflexivity.
  - destruct (f x); simpl.
    + apply Z.gtb_lt. lia.
    + apply IH. lia.
Qed.

Lemma update_at_findIndex_from (l : list A) i :
  0 <= i -> existsb f l = true ->
  update_at (Z.to_nat (findIndex_from f l i - i)) g l = mutate_found f g l.
Proof.
  revert i. induction l as [|x l IH]; intros i Hi H; simpl in *.
  - discriminate.
  - destruct (f x); simpl in *.
    + now rewrite Z.sub_diag.
    + pose proof (findIndex_from_found l (i + 1) ltac:(lia)) as Hf.
      rewrite H in Hf. apply Z.gtb_lt in Hf.
      destruct (findIndex_from_bounds l (i + 1)) as [Hm|Hb]; [lia|].
      replace (Z.to_nat (findIndex_from f l (i + 1) - i))
        with (S (Z.to_nat (findIndex_from f l (i + 1) - (i + 1)))) by lia.
      simpl. rewrite IH; [reflexivity|lia|assumption].
Qed.

Lemma update_at_findIndex (l : list A) :
  existsb f l = true ->
  update_at (Z.to_nat (findIndex f l)) g l = mutate_found f g l.
Proof.
  intros H. unfold findIndex.
  rewrite <- (update_at_findIndex_from l 0) by (lia || assumption).
  now rewrite Z.sub_0_r.
Qed.

Lemma findIndex_found (l : list A) : (findIndex f l >? -1) = existsb f l.
Proof. apply findIndex_from_found. lia. Qed.


Lemma find_none_existsb (l : list A) : find f l = None <-> existsb f l = false.
Proof.
  induction l as [|y l IH]; simpl; [tauto|].
  destruct (f y); simpl; [split; discriminate|exact IH].
Qed.

End FirstMatch.

(* ===================================================================== *)
(** ** The cart                                                           *)
(* ===================================================================== *)

Lemma strict_eq_true a b : strict_eq a b = true <-> a = b.
Proof.
  destruct a as [x|], b as [y|]; simpl; try (split; congruence).
  rewrite String.eqb_eq. split; congruence.
Qed.

Lemma same_line_key pid size color item :
  same_line pid size color item = true <-> line_key item = (pid, size, color).
Proof.
  unfold same_line, line_key.
  rewrite !andb_true_iff, Z.eqb_eq, !strict_eq_true.
  split; [intros [[-> ->] ->]; reflexivity|intros H; inversion H; auto].
Qed.



(** What [addToCart] does for a product with a usable id. *)
Lemma addToCart_run w cart p pid quantity size color :
  result getCart w = Normal cart ->
  Product.id p = Some pid -> pid <> 0 ->
  addToCart (Some p) quantity size color w =
  (Normal true,
   with_effect (Notification (Product.name p ++ " added to cart!")%string)
     (saved (merged p pid quantity size color (toISOString (clock w)) cart) w)).
Proof.
  intros Hcart Hid Hpid. unfold addToCart. rewrite Hid.
  apply Z.eqb_neq in Hpid. rewrite Hpid.
  rewrite (bind_normal _ (getCart_normal Hcart)).
  rewrite findIndex_found. unfold merged.
  destruct (existsb (same_line pid size color) cart) eqn:Hex.
  - rewrite update_at_findIndex by assumption. reflexivity.
  - reflexivity.
Qed.

(** A product that is null, lacks an id or has the id 0 is refused, and
    storage stays as it is. *)
Lemma addToCart_invalid w product quantity size color :
  match product with
  | Some p => match Product.id p with Some pid => pid = 0 | None => True end
  | None => True
  end ->
  addToCart product quantity size color w =
  (Normal false,
   with_effect (ConsoleError "Invalid product provided to addToCart") w).
Proof.
  unfold addToCart. destruct product as [p|]; [|reflexivity].
  destruct (Product.id p) as [pid|]; [|reflexivity].
  intros ->. reflexivity.
Qed.

(* ===================================================================== *)
(** ** Placing an order                                                   *)
(* ===================================================================== *)

Lemma parse_buy_now_or_run {A} (some : BuyNowItem.t -> A) (dflt : A) w :
  parse_buy_now_or some dflt w =
  (match stored_buy_now w with
   | Some (Json b) => Normal (some b)
   | Some (Garbled s) => if truthy_string s then Throw SyntaxError else Normal dflt
   | None => Normal dflt
   end, w).
Proof.
  unfold parse_buy_now_or, bind, read.
  destruct (stored_buy_now w) as [[b|s]|]; simpl; try reflexivity.
  destruct (truthy_string s); reflexivity.
Qed.

Lemma saveOrder_run o w :
  saveOrder o w =
  match order_log w with
  | Normal orders => (Normal tt, with_orders (Some (Json (orders ++ [o]))) w)
  | Throw e => (Throw e, w)
  end.
Proof.
  unfold saveOrder, order_log, parsed, bind, read.
  destruct (stored_orders w) as [[os|s]|]; simpl; try reflexivity.
  destruct (truthy_string s); reflexivity.
Qed.

(** [processOrder], in one step: it stops with the world untouched when
    the items or the log cannot be parsed, and places the order
    otherwise. *)
Lemma processOrder_run orderData w :
  processOrder orderData w =
  match order_items w with
  | Throw e => (Throw e, w)
  | Normal items =>
      match order_log w with
      | Throw e => (Throw e, w)
      | Normal orders => (Normal tt, placed (new_order orderData w items) orders w)
      end
  end.
Proof.
  unfold processOrder, order_items, buy_now_mode, generateOrderId, now.
  unfold bind at 1. unfold read at 1.
  unfold bind at 1. unfold bind at 1. unfold read at 1. unfold ret at 1.
  unfold bind at 1. unfold read at 1.
  unfold bind at 1.
  destruct (strict_eq (param_mode w) (Some "buy-now")) eqn:Hmode.
  - unfold bind at 1. rewrite parse_buy_now_or_run.
    destruct (stored_buy_now w) as [[b|s]|] eqn:Hb; simpl.
    + unfold bind at 1. rewrite saveOrder_run.
      destruct (order_log w) as [orders|e]; [|reflexivity].
      unfold placed, buy_now_mode. rewrite Hmode. reflexivity.
    + destruct (truthy_string s); [reflexivity|]. simpl.
      unfold bind at 1. rewrite saveOrder_run.
      destruct (order_log w) as [orders|e]; [|reflexivity].
      unfold placed, buy_now_mode. rewrite Hmode. reflexivity.
    + unfold bind at 1. rewrite saveOrder_run.
      destruct (order_log w) as [orders|e]; [|reflexivity].
      unfold placed, buy_now_mode. rewrite Hmode. reflexivity.
  - unfold bind at 1. rewrite getCart_run.
    destruct (parsed (stored_cart w) []) as [cart|e]; [|reflexivity].
    unfold ret at 1. unfold bind at 1. rewrite saveOrder_run.
    destruct (order_log w) as [orders|e]; [|reflexivity].
    unfold placed, buy_now_mode. rewrite Hmode. reflexivity.
Qed.

Lemma handleCheckoutSubmit_run orderData w :
  handleCheckoutSubmit orderData w =
  match checkout_errors orderData with
  | [] => processOrder orderData w
  | errors => (Normal tt, with_effect (CheckoutError errors) w)
  end.
Proof.
  unfold handleCheckoutSubmit, validateCheckoutForm, bind.
  destruct (checkout_errors orderData) as [|e errors]; simpl.
  - destruct (processOrder orderData w) as [[[]|e] w']; reflexivity.
  - reflexivity.
Qed.

(** A checkout leaves the cart key as it was or removes it. *)
Lemma handleCheckoutSubmit_cart orderData w :
  stored_cart (after (handleCheckoutSubmit orderData) w) = stored_cart w \/
  stored_cart (after (handleCheckoutSubmit orderData) w) = None.
Proof.
  unfold after. rewrite handleCheckoutSubmit_run.
  destruct (checkout_errors orderData); [|now left].
  rewrite processOrder_run.
  destruct (order_items w) as [items|e]; [|now left].
  destruct (order_log w) as [orders|e]; [|now left].
  unfold placed. destruct (buy_now_mode w); [now left|now right].
Qed.

(* ===================================================================== *)
(** ** One line per key                                                   *)
(* ===================================================================== *)

Section Lines.
Variables (pid : Z) (size color : option string).
Let f := same_line pid size color.




Lemma NoDup_snoc {K} (k : K) (ks : list K) :
  NoDup ks -> ~ In k ks -> NoDup (ks ++ [k]).
Proof.
  induction ks as [|x ks IH]; simpl; intros Hnd Hnotin.
  - constructor; [intros []|constructor].
  - inversion Hnd as [|y ys Hx Hks]; subst. constructor.
    + rewrite in_app_iff. simpl. intros [Hin|[->|[]]]; tauto.
    + apply IH; tauto.
Qed.





End Lines.

Lemma renderCart_after_save cart w :
  exists w',
    renderCart (saved cart w) = (Normal tt, w') /\
    stored_cart w' = Some (Json cart).
Proof.
  pose proof (renderCart_frame (saved cart w)) as [Hl _].
  assert (Hr : result renderCart (saved cart w) = Normal tt).
  { apply renderCart_normal with (cart := cart). now rewrite result_getCart. }
  unfold result, after in *.
  destruct (renderCart (saved cart w)) as [r w']. simpl in *. subst r.
  exists w'. split; [reflexivity|]. unfold stored_cart. now rewrite Hl.
Qed.

(** [removeFromCart] on a readable cart: the lines with the key go. *)
Lemma removeFromCart_run itemId w cart :
  result getCart w = Normal cart ->
  exists w',
    removeFromCart itemId w = (Normal tt, w') /\
    stored_cart w' =
      Some (Json (filter (fun item => negb (cartItemId item =? itemId)%string) cart)).
Proof.
  intros Hcart. unfold removeFromCart.
  rewrite (bind_normal _ (getCart_normal Hcart)).
  unfold bind at 1. rewrite saveCart_run.
  destruct (renderCart_after_save
              (filter (fun item => negb (cartItemId item =? itemId)%string) cart) w)
    as (w' & Hrun & Hstored).
  unfold bind at 1. rewrite Hrun.
  eexists. split; [reflexivity|exact Hstored].
Qed.

Lemma removeFromCart_stored itemId w cart :
  result getCart w = Normal cart ->
  result (removeFromCart itemId) w = Normal tt /\
  stored_cart (after (removeFromCart itemId) w) =
    Some (Json (filter (fun item => negb (cartItemId item =? itemId)%string) cart)).
Proof.
  intros Hcart. unfold result, after.
  destruct (removeFromCart_run itemId _ _ Hcart) as (w' & -> & Hs). now split.
Qed.

(** [updateCartItemQuantity] with a quantity of at least 1. *)
Lemma updateCartItemQuantity_stored itemId q w cart :
  ltb q 1 = false ->
  result getCart w = Normal cart ->
  stored_cart (after (updateCartItemQuantity itemId q) w) =
    match find (fun item => (cartItemId item =? itemId)%string) cart with
    | Some _ =>
        Some (Json (mutate_found (fun item => (cartItemId item =? itemId)%string)
                      (CartItem.with_quantity q) cart))
    | None => stored_cart w
    end.
Proof.
  intros Hq Hcart. unfold after, updateCartItemQuantity. rewrite Hq.
  rewrite (bind_normal _ (getCart_normal Hcart)).
  destruct (find _ cart); [|reflexivity].
  unfold bind at 1. rewrite saveCart_run.
  destruct (renderCart_after_save
              (mutate_found (fun item => (cartItemId item =? itemId)%string)
                 (CartItem.with_quantity q) cart) w) as (w' & Hrun & Hstored).
  rewrite Hrun. exact Hstored.
Qed.






Lemma ltb_lt a b : ltb a b = true <-> (a < b)%Q.
Proof.
  unfold ltb. rewrite negb_true_iff.
  destruct (Qle_bool b a) eqn:H.
  - apply Qle_bool_iff in H. split; [discriminate|].
    intros Hlt. exfalso. exact (Qlt_not_le _ _ Hlt H).
  - split; [intros _|reflexivity].
    apply Qnot_le_lt. intros Hle. apply Qle_bool_iff in Hle. congruence.
Qed.

Section Merging.
Variables (p : Product.t) (pid : Z) (size color : option string).
Let f := same_line pid size color.


End Merging.

(** ** The claims about the cart *)







(* ===================================================================== *)
(** ** Orders                                                             *)
(* ===================================================================== *)

Lemma log_cannot_hold_more w orders o :
  order_log w = Normal orders ->
  stored_orders w = Some (Json (orders ++ [o])) -> False.
Proof.
  unfold order_log. intros Hlog Hs. rewrite Hs in Hlog. simpl in Hlog.
  injection Hlog as Hlog. apply (f_equal (@length _)) in Hlog.
  rewrite length_app in Hlog. simpl in Hlog. lia.
Qed.

(** A run of [processOrder] that made the log grow by [o] went all the
    way, and [o] is the order it built. *)
Lemma processOrder_produced orderData w o :
  order_produced w (after (processOrder orderData) w) o ->
  exists items orders,
    order_items w = Normal items /\
    order_log w = Normal orders /\
    o = new_order orderData w items /\
    processOrder orderData w = (Normal tt, placed o orders w).
Proof.
  intros (orders & Hlog & Hs). unfold after in Hs.
  rewrite processOrder_run in *.
  destruct (order_items w) as [items|e].
  2:{ exfalso. exact (log_cannot_hold_more _ _ _ Hlog Hs). }
  rewrite Hlog in *.
  assert (Ho : o = new_order orderData w items).
  { unfold placed in Hs. destruct (buy_now_mode w); simpl in Hs;
      injection Hs as Hs; apply app_inj_tail in Hs as [_ Hs]; now symmetry. }
  exists items, orders. now subst o.
Qed.

Lemma handleCheckoutSubmit_produced orderData w o :
  order_produced w (after (handleCheckoutSubmit orderData) w) o ->
  checkout_errors orderData = [] /\
  order_produced w (after (processOrder orderData) w) o.
Proof.
  intros H. unfold after in H. rewrite handleCheckoutSubmit_run in H.
  destruct (checkout_errors orderData) as [|e errors]; [now split|].
  exfalso. destruct H as (orders & Hlog & Hs).
  exact (log_cannot_hold_more _ _ _ Hlog Hs).
Qed.

(** On a readable source and log, [processOrder] does place the order. *)
Lemma processOrder_places orderData w items orders :
  order_items w = Normal items ->
  order_log w = Normal orders ->
  order_produced w (after (processOrder orderData) w) (new_order orderData w items).
Proof.
  intros Hi Hl. exists orders. split; [assumption|].
  unfold after. rewrite processOrder_run, Hi, Hl.
  unfold placed. destruct (buy_now_mode w); reflexivity.
Qed.

(** *** Sums of numbers *)








(** What the cart page shows for a cart with lines. *)
Lemma renderCart_run w cart :
  cart_items_container w = true ->
  result getCart w = Normal cart ->
  cart <> [] ->
  renderCart w =
  (Normal tt,
   with_effect
     (CartRendered
        (CartContent
           (map (fun item =>
                   (cartItemId item, (CartItem.price item * CartItem.quantity item)%Q))
                cart)
           (cart_total cart)
           (if ltb 0 (cart_total cart) then 9.99%Q else 0%Q)
           (cart_total cart + (if ltb 0 (cart_total cart) then 9.99 else 0))%Q))
     w).
Proof.
  intros Hpage Hcart Hne. unfold renderCart, bind at 1, read. rewrite Hpage. simpl.
  rewrite (bind_normal _ (getCart_normal Hcart)).
  destruct cart as [|item cart]; [congruence|].
  replace (Z.of_nat (length (item :: cart)) =? 0)%Z with false
    by (symmetry; apply Z.eqb_neq; simpl length; lia).
  unfold getCartTotal. unfold bind at 1.
  rewrite (bind_normal _ (getCart_normal Hcart)). reflexivity.
Qed.

(** C3, as the code has it.  Every order [processOrder] appends carries
    the shipping 9.99, in cart mode and in buy-now mode alike and whatever
    its subtotal.  Shipping that depends on the subtotal exists on the
    cart page only: [renderCart] shows 9.99 when the cart's total is above
    0 and 0 otherwise. *)
Theorem processOrder_shipping_is_flat :
  (forall w orderData o,
     order_produced w (after (processOrder orderData) w) o ->
     Order.shipping o = Num 9.99) /\
  (forall w cart,
     cart_items_container w = true ->
     result getCart w = Normal cart ->
     cart <> [] ->
     exists lines shipping,
       effects (after renderCart w)
       = effects w
         ++ [CartRendered
               (CartContent lines (cart_total cart) shipping
                  (cart_total cart + shipping)%Q)] /\
       ((0 < cart_total cart)%Q -> shipping = 9.99%Q) /\
       (~ (0 < cart_total cart)%Q -> shipping = 0%Q)).
Proof.
  split.
  - intros w orderData o Hprod.
    destruct (processOrder_produced _ _ _ Hprod) as (items & orders & _ & _ & -> & _).
    reflexivity.
  - intros w cart Hpage Hcart Hne.
    unfold after. rewrite (renderCart_run w cart Hpage Hcart Hne). simpl.
    eexists. eexists. split; [reflexivity|].
    destruct (ltb 0 (cart_total cart)) eqn:Hlt.
    + split; [reflexivity|]. apply ltb_lt in Hlt. tauto.
    + split; [|reflexivity]. intros Hpos. apply ltb_lt in Hpos. congruence.
Qed.

(** The free sample in the cart, cart mode: the order is placed with
    subtotal 0 and shipping 9.99, while the cart page shows shipping 0. *)
Lemma processOrder_shipping_is_flat_witness :
  (exists o,
     order_produced free_checkout (after (processOrder customer) free_checkout) o /\
     Order.shipping o = Num 9.99) /\
  (exists lines shipping,
     effects (after renderCart free_checkout)
     = [CartRendered (CartContent lines 0 shipping (0 + shipping)%Q)] /\
     shipping = 0%Q).
Proof.
  destruct processOrder_shipping_is_flat as [Horder Hpage].
  split.
  - exists (new_order customer free_checkout (map CartLine one_sticker)).
    assert (Hprod : order_produced free_checkout
                      (after (processOrder customer) free_checkout)
                      (new_order customer free_checkout (map CartLine one_sticker))).
    { exists []. split; reflexivity. }
    split; [exact Hprod|]. exact (Horder _ _ _ Hprod).
  - destruct (Hpage free_checkout one_sticker eq_refl eq_refl ltac:(discriminate))
      as (lines & shipping & He & _ & Hzero).
    exists lines, shipping. split; [exact He|].
    apply Hzero. intros Hlt. vm_compute in Hlt. discriminate.
Defined.

(** C3, as claimed, fails: in cart mode, with the free sample as the
    cart's only line, the order's subtotal is 0 and its stored shipping is
    9.99, not 0. *)
Lemma processOrder_shipping_counterexample :
  param_mode free_checkout = None /\
  exists o,
    order_produced free_checkout (after (processOrder customer) free_checkout) o /\
    Order.mode o = "cart" /\
    Order.subtotal o = Num 0 /\
    Order.shipping o = Num 9.99 /\
    ~ same (Order.shipping o) (Num 0).
Proof.
  split; [reflexivity|].
  exists (new_order customer free_checkout (map CartLine one_sticker)).
  split; [exists []; split; reflexivity|].
  split; [reflexivity|]. split; [reflexivity|]. split; [reflexivity|].
  simpl. intros H. vm_compute in H. discriminate.
Qed.

Lemma buy_now_mode_true w : buy_now_mode w = true <-> param_mode w = Some "buy-now".
Proof. apply strict_eq_true. Qed.

Lemma buy_now_mode_false w : buy_now_mode w = false <-> param_mode w <> Some "buy-now".
Proof.
  rewrite <- buy_now_mode_true. destruct (buy_now_mode w); split; congruence.
Qed.

Lemma isLoggedIn_run w session :
  stored_session w = Some (Json session) -> isLoggedIn w = (Normal true, w).
Proof.
  intros Hs. unfold isLoggedIn, bind. rewrite getSession_run, Hs. reflexivity.
Qed.

(** The checkout page, opened in cart mode on a cart without lines. *)
Lemma initCheckout_empty_cart w session :
  stored_session w = Some (Json session) ->
  buy_now_mode w = false ->
  result getCart w = Normal [] ->
  initCheckout w = (Normal tt, with_effect (Navigate "cart.html") w).
Proof.
  intros Hs Hmode Hcart. unfold initCheckout.
  rewrite (bind_normal _ (isLoggedIn_run w session Hs)). simpl.
  unfold bind at 1, read. fold (buy_now_mode w). rewrite Hmode.
  unfold renderCartCheckout. rewrite (bind_normal _ (getCart_normal Hcart)).
  reflexivity.
Qed.

(** The checkout page, opened in buy-now mode with nothing pending. *)
Lemma initCheckout_nothing_pending w session :
  stored_session w = Some (Json session) ->
  buy_now_mode w = true ->
  truthy_text (stored_buy_now w) = false ->
  initCheckout w = (Normal tt, with_effect (Navigate "shop.html") w).
Proof.
  intros Hs Hmode Hnone. unfold initCheckout.
  rewrite (bind_normal _ (isLoggedIn_run w session Hs)). simpl.
  unfold bind at 1, read. fold (buy_now_mode w). rewrite Hmode.
  unfold renderBuyNowCheckout, bind. rewrite parse_buy_now_or_run.
  destruct (stored_buy_now w) as [[b|s]|]; simpl in *; try discriminate.
  - rewrite Hnone. reflexivity.
  - reflexivity.
Qed.

Lemma order_items_nothing_pending w :
  buy_now_mode w = true ->
  truthy_text (stored_buy_now w) = false ->
  order_items w = Normal [EmptyObject].
Proof.
  intros Hmode Hnone. unfold order_items. rewrite Hmode.
  destruct (stored_buy_now w) as [[b|s]|]; simpl in *; try discriminate.
  - now rewrite Hnone.
  - reflexivity.
Qed.

Lemma order_items_empty_cart w :
  buy_now_mode w = false ->
  result getCart w = Normal [] ->
  order_items w = Normal [].
Proof.
  intros Hmode Hcart. unfold order_items. rewrite Hmode.
  rewrite result_getCart in Hcart. now rewrite Hcart.
Qed.

(** C4, as the code has it.  An empty source is stopped when the checkout
    page loads, not when the order is built.  For a logged-in visitor,
    [initCheckout] in cart mode on a cart without lines only navigates to
    cart.html, and in buy-now mode with no buy-now item in session storage
    only navigates to shop.html; storage and the order log stay as they
    are.  [processOrder] itself checks nothing: run on the same worlds it
    appends an order, with no items in cart mode and with the empty
    object as its one item in buy-now mode. *)
Theorem empty_source_stopped_at_page_load :
  forall w session,
    stored_session w = Some (Json session) ->
    (param_mode w <> Some "buy-now" ->
     result getCart w = Normal [] ->
     initCheckout w = (Normal tt, with_effect (Navigate "cart.html") w) /\
     forall orderData orders,
       order_log w = Normal orders ->
       order_produced w (after (processOrder orderData) w) (new_order orderData w [])) /\
    (param_mode w = Some "buy-now" ->
     truthy_text (stored_buy_now w) = false ->
     initCheckout w = (Normal tt, with_effect (Navigate "shop.html") w) /\
     forall orderData orders,
       order_log w = Normal orders ->
       order_produced w (after (processOrder orderData) w)
         (new_order orderData w [EmptyObject])).
Proof.
  intros w session Hs. split.
  - intros Hmode Hcart. apply buy_now_mode_false in Hmode.
    split; [now apply initCheckout_empty_cart with (session := session)|].
    intros orderData orders Hlog.
    apply processOrder_places with (orders := orders); [|assumption].
    now apply order_items_empty_cart.
  - intros Hmode Hnone. apply buy_now_mode_true in Hmode.
    split; [now apply initCheckout_nothing_pending with (session := session)|].
    intros orderData orders Hlog.
    apply processOrder_places with (orders := orders); [|assumption].
    now apply order_items_nothing_pending.
Qed.

(** Ada opens the checkout page without a cart, and then in buy-now mode
    with nothing pending: both times the page sends her away. *)
Lemma empty_source_stopped_at_page_load_witness :
  after initCheckout empty_cart_checkout
  = with_effect (Navigate "cart.html") empty_cart_checkout /\
  after initCheckout nothing_pending_checkout
  = with_effect (Navigate "shop.html") nothing_pending_checkout /\
  order_produced nothing_pending_checkout
    (after (processOrder customer) nothing_pending_checkout)
    (new_order customer nothing_pending_checkout [EmptyObject]).
Proof.
  destruct (empty_source_stopped_at_page_load empty_cart_checkout ada_session eq_refl)
    as [Hcart _].
  destruct (empty_source_stopped_at_page_load nothing_pending_checkout ada_session eq_refl)
    as [_ Hbuy].
  destruct (Hcart ltac:(discriminate) eq_refl) as [E1 _].
  destruct (Hbuy eq_refl eq_refl) as [E2 Hplaced].
  unfold after. rewrite E1, E2.
  split; [reflexivity|]. split; [reflexivity|].
  exact (Hplaced customer [] eq_refl).
Defined.

(** C4, as claimed, fails: with no cart in storage, in cart mode,
    [processOrder] completes and the order log, empty before, holds an
    order without items. *)
Lemma processOrder_empty_cart_counterexample :
  param_mode empty_cart_checkout = None /\
  result getCart empty_cart_checkout = Normal [] /\
  stored_orders empty_cart_checkout = None /\
  result (processOrder customer) empty_cart_checkout = Normal tt /\
  exists o,
    stored_orders (after (processOrder customer) empty_cart_checkout) = Some (Json [o]) /\
    Order.items o = [].
Proof.
  split; [reflexivity|]. split; [reflexivity|]. split; [reflexivity|].
  split; [reflexivity|].
  exists (new_order customer empty_cart_checkout []). split; reflexivity.
Qed.

(** C5. For every checkout submission that produces an order: when the
    page's mode is not buy-now the cart key is removed, when it is buy-now
    the cart key is left as it was, and in both modes the buy-now item is
    removed from session storage. *)
Theorem checkout_clears_its_source :
  forall w orderData o,
    let w' := after (handleCheckoutSubmit orderData) w in
    order_produced w w' o ->
    (param_mode w <> Some "buy-now" -> stored_cart w' = None) /\
    (param_mode w = Some "buy-now" -> stored_cart w' = stored_cart w) /\
    stored_buy_now w' = None.
Proof.
  intros w orderData o w' Hprod.
  destruct (handleCheckoutSubmit_produced _ _ _ Hprod) as [Hvalid Hprod'].
  destruct (processOrder_produced _ _ _ Hprod') as (items & orders & _ & _ & _ & E).
  assert (Hw' : w' = placed o orders w).
  { unfold w', after. now rewrite handleCheckoutSubmit_run, Hvalid, E. }
  rewrite Hw'. unfold placed.
  split; [|split].
  - intros Hmode. apply buy_now_mode_false in Hmode. now rewrite Hmode.
  - intros Hmode. apply buy_now_mode_true in Hmode. now rewrite Hmode.
  - destruct (buy_now_mode w); reflexivity.
Qed.

(** One jacket bought at once while two shirts wait in the cart: the
    order has subtotal 50, shipping 9.99, tax 4.00 and total 63.99, the
    buy-now item is gone and the cart still holds the two shirts. *)
Lemma checkout_clears_its_source_witness :
  exists o,
    order_produced buy_now_checkout
      (after (handleCheckoutSubmit customer) buy_now_checkout) o /\
    same (Order.total o) (Num 63.99) /\
    stored_cart (after (handleCheckoutSubmit customer) buy_now_checkout)
    = Some (Json two_shirts) /\
    stored_buy_now (after (handleCheckoutSubmit customer) buy_now_checkout) = None.
Proof.
  exists (new_order customer buy_now_checkout [BuyNowLine one_jacket]).
  assert (Hprod : order_produced buy_now_checkout
                    (after (handleCheckoutSubmit customer) buy_now_checkout)
                    (new_order customer buy_now_checkout [BuyNowLine one_jacket])).
  { exists []. split; reflexivity. }
  destruct (checkout_clears_its_source buy_now_checkout customer _ Hprod)
    as (_ & Hkept & Hgone).
  split; [exact Hprod|]. split; [reflexivity|].
  split; [exact (Hkept eq_refl)|exact Hgone].
Defined.

(* ===================================================================== *)
(** ** Reading storage                                                    *)
(* ===================================================================== *)

Lemma truthy_string_true s : truthy_string s = true <-> s <> "".
Proof.
  unfold truthy_string. rewrite negb_true_iff. apply String.eqb_neq.
Qed.





(* ===================================================================== *)
(** ** Registration and login                                             *)
(* ===================================================================== *)


(** Fields that fail a check are answered with that check's message, and
    nothing else happens. *)
Lemma handleRegister_fields_rejected w name email password confirmPassword :
  fields_accepted name email password confirmPassword = false ->
  exists message,
    In message field_messages /\
    handleRegister (Some name) (Some email) (Some password) (Some confirmPassword) w
    = (Normal tt, with_effect (AuthError message) w).
Proof.
  unfold fields_accepted, normalised, handleRegister. simpl.
  destruct (truthy_string (trim name)); simpl;
    [|intros _; eexists; split; [left; reflexivity|reflexivity]].
  destruct (truthy_string (toLowerCase (trim email))); simpl;
    [|intros _; eexists; split; [left; reflexivity|reflexivity]].
  destruct (truthy_string password); simpl;
    [|intros _; eexists; split; [left; reflexivity|reflexivity]].
  destruct (truthy_string confirmPassword); simpl;
    [|intros _; eexists; split; [left; reflexivity|reflexivity]].
  destruct (password =? confirmPassword)%string; simpl;
    [|intros _; eexists; split; [right; left; reflexivity|reflexivity]].
  destruct (test passwordRegex password); simpl; [discriminate|].
  intros _. eexists. split; [right; right; left; reflexivity|reflexivity].
Qed.

(** Accepted fields lead to the look-up of the e-mail address. *)
Lemma handleRegister_fields_accepted w users name email password confirmPassword :
  fields_accepted name email password confirmPassword = true ->
  result getUsers w = Normal users ->
  handleRegister (Some name) (Some email) (Some password) (Some confirmPassword) w
  = if existsb (fun user => (User.email user =? normalised email)%string) users
    then (Normal tt, with_effect (AuthError "Email already registered") w)
    else (Normal tt,
          logged_in (new_user name email password w)
            (with_users (Some (Json (users ++ [new_user name email password w]))) w)).
Proof.
  unfold fields_accepted, normalised, handleRegister. simpl.
  intros Hok Hu.
  repeat (apply andb_true_iff in Hok as [Hok ?]).
  repeat match goal with H : _ = true |- _ => rewrite H; clear H end. simpl.
  unfold result in Hu. rewrite getUsers_run in Hu. simpl in Hu.
  unfold bind at 1. rewrite getUsers_run, Hu.
  destruct (existsb _ users); reflexivity.
Qed.





(** [handleLogin] once both fields are filled in. *)
Lemma handleLogin_filled w users email password :
  result getUsers w = Normal users ->
  normalised email <> "" -> password <> "" ->
  handleLogin (Some email) (Some password) w
  = match find (fun u => (User.email u =? normalised email)%string) users with
    | Some user =>
        if (User.password user =? password)%string
        then (Normal tt, logged_in user w)
        else (Normal tt, with_effect (AuthError "Invalid email or password") w)
    | None => (Normal tt, with_effect (AuthError "Invalid email or password") w)
    end.
Proof.
  intros Hu He Hp. unfold handleLogin, normalised in *. simpl.
  apply truthy_string_true in He, Hp. rewrite He, Hp. simpl.
  unfold result in Hu. rewrite getUsers_run in Hu. simpl in Hu.
  unfold bind at 1. rewrite getUsers_run, Hu.
  destruct (find _ users) as [user|]; [|reflexivity].
  destruct (User.password user =? password)%string; reflexivity.
Qed.

Lemma handleLogin_blank w email password :
  normalised email = "" \/ password = "" ->
  handleLogin (Some email) (Some password) w
  = (Normal tt, with_effect (AuthError "Please enter email and password") w).
Proof.
  intros H. unfold handleLogin, normalised in *. simpl.
  destruct H as [H|H]; rewrite H; simpl; [reflexivity|].
  now rewrite orb_true_r.
Qed.





(* ===================================================================== *)
(** ** Regular expressions: what [test] decides                           *)
(* ===================================================================== *)

Lemma append_nil_both (s1 s2 : string) :
  (s1 ++ s2)%string = "" -> s1 = "" /\ s2 = "".
Proof. destruct s1; simpl; [auto|discriminate]. Qed.

Lemma append_empty_r (s : string) : (s ++ "")%string = s.
Proof. induction s as [|c s IH]; simpl; [reflexivity|now rewrite IH]. Qed.

Lemma append_assoc (a b c : string) :
  ((a ++ b) ++ c)%string = (a ++ (b ++ c))%string.
Proof. induction a as [|x a IH]; simpl; [reflexivity|now rewrite IH]. Qed.

Lemma nullable_matches r : nullable r = true <-> matches r "".
Proof.
  split.
  - induction r; simpl; intros H; try discriminate.
    + constructor.
    + apply andb_true_iff in H as [H1 H2].
      change "" with ("" ++ "")%string. constructor; auto.
    + apply orb_true_iff in H as [H|H];
        [apply matches_alt_l|apply matches_alt_r]; auto.
    + constructor.
    + apply andb_true_iff in H as [H1 H2]. constructor; auto.
  - intros H. remember "" as s eqn:Es.
    induction H; simpl; try reflexivity; try discriminate.
    + apply append_nil_both in Es as [E1 E2]. rewrite IHmatches1, IHmatches2; auto.
    + rewrite IHmatches; auto.
    + rewrite IHmatches; auto. apply orb_true_r.
    + rewrite IHmatches1, IHmatches2; auto.
Qed.

Lemma matches_deriv c r s : matches (deriv c r) s -> matches r (String c s).
Proof.
  revert s. induction r; simpl; intros s H.
  - inversion H.
  - inversion H.
  - destruct (p c) eqn:Hp; inversion H; subst. now constructor.
  - destruct (nullable r1) eqn:Hn.
    + inversion H as [| | | ? ? ? H1 | ? ? ? H2 | | |]; subst.
      * inversion H1; subst.
        change (String c (s1 ++ s2)%string) with (String c s1 ++ s2)%string.
        constructor; auto.
      * change (String c s) with ("" ++ String c s)%string.
        constructor; [now apply nullable_matches|auto].
    + inversion H; subst.
      change (String c (s1 ++ s2)%string) with (String c s1 ++ s2)%string.
      constructor; auto.
  - inversion H; subst; [apply matches_alt_l|apply matches_alt_r]; auto.
  - inversion H; subst.
    change (String c (s1 ++ s2)%string) with (String c s1 ++ s2)%string.
    constructor; auto.
  - inversion H; subst. constructor; auto.
Qed.

Lemma deriv_matches c r t :
  matches r t -> forall s, t = String c s -> matches (deriv c r) s.
Proof.
  induction 1 as [|p c0 Hp|r1 r2 s1 s2 H1 IH1 H2 IH2|r1 r2 s0 H1 IH1|r1 r2 s0 H2 IH2|
                  r1|r1 s1 s2 H1 IH1 H2 IH2|r1 r2 s0 H1 IH1 H2 IH2];
    intros s E; simpl.
  - discriminate.
  - injection E as -> <-. rewrite Hp. constructor.
  - destruct s1 as [|c1 s1]; simpl in E.
    + assert (Hn : nullable r1 = true) by now apply nullable_matches.
      rewrite Hn. apply matches_alt_r. now apply IH2.
    + injection E as -> <-.
      assert (Hc : matches (Cat (deriv c r1) r2) (s1 ++ s2)%string).
      { constructor; [now apply IH1|assumption]. }
      destruct (nullable r1); [now apply matches_alt_l|assumption].
  - apply matches_alt_l. now apply IH1.
  - apply matches_alt_r. now apply IH2.
  - discriminate.
  - destruct s1 as [|c1 s1]; simpl in E.
    + now apply IH2.
    + injection E as -> <-. constructor; [now apply IH1|assumption].
  - constructor; [now apply IH1|now apply IH2].
Qed.

(** [test] decides whether the expression matches the whole string. *)
Lemma test_matches r s : test r s = true <-> matches r s.
Proof.
  revert r. induction s as [|c s IH]; intros r; simpl.
  - apply nullable_matches.
  - rewrite IH. split; [apply matches_deriv|].
    intros H. now apply (deriv_matches c r (String c s) H).
Qed.

Lemma matches_class_inv p s :
  matches (Class p) s -> exists c, s = String c "" /\ p c = true.
Proof. intros H. inversion H; subst. eauto. Qed.

Lemma matches_star_class p s : matches (Star (Class p)) s <-> every p s = true.
Proof.
  split.
  - intros H. remember (Star (Class p)) as r eqn:Er.
    induction H; try discriminate; [reflexivity|].
    injection Er as ->.
    apply matches_class_inv in H as (c & -> & Hp). simpl. rewrite Hp. auto.
  - induction s as [|c s IH]; simpl; intros H; [constructor|].
    apply andb_true_iff in H as [Hp Hs].
    change (String c s) with (String c "" ++ s)%string.
    constructor; [now constructor|auto].
Qed.


Lemma matches_at_least p n s :
  matches (AtLeast n (Class p)) s <-> (n <= String.length s)%nat /\ every p s = true.
Proof.
  revert s. induction n as [|n IH]; intros s; simpl.
  - rewrite matches_star_class. split; [intros H; split; [lia|auto]|tauto].
  - split.
    + intros H. inversion H as [| |? ? s1 s2 H1 H2| | | | |]; subst.
      apply matches_class_inv in H1 as (c & -> & Hp).
      apply IH in H2 as [Hl He]. simpl. rewrite Hp, He. split; [lia|auto].
    + intros [Hl He]. destruct s as [|c s]; simpl in *; [lia|].
      apply andb_true_iff in He as [Hp He].
      change (String c s) with (String c "" ++ s)%string.
      constructor; [now constructor|]. apply IH. split; [lia|auto].
Qed.

Lemma every_app p (a b : string) :
  every p (a ++ b)%string = every p a && every p b.
Proof.
  induction a as [|c a IH]; simpl; [reflexivity|]. now rewrite IH, andb_assoc.
Qed.

Lemma some_app p (a b : string) :
  some p (a ++ b)%string = some p a || some p b.
Proof.
  induction a as [|c a IH]; simpl; [reflexivity|]. now rewrite IH, orb_assoc.
Qed.

Lemma some_split p s :
  some p s = true ->
  exists pre c post, s = (pre ++ String c post)%string /\ p c = true.
Proof.
  induction s as [|c s IH]; simpl; [discriminate|].
  destruct (p c) eqn:Hp; simpl.
  - intros _. exists "", c, s. auto.
  - intros H. destruct (IH H) as (pre & c' & post & -> & Hp').
    exists (String c pre), c', post. auto.
Qed.

Lemma length_append (a b : string) :
  String.length (a ++ b)%string = (String.length a + String.length b)%nat.
Proof. induction a as [|c a IH]; simpl; [reflexivity|now rewrite IH]. Qed.

(** A look-ahead for a character of a class after characters that are
    not line breaks. *)
Lemma matches_lookahead p s :
  matches (Lookahead (Cat (Star (Class dot)) (Class p))) s -> some p s = true.
Proof.
  unfold Lookahead. intros H.
  inversion H as [| |? ? s1 s2 H1 H2| | | | |]; subst.
  inversion H1 as [| |? ? s3 s4 H3 H4| | | | |]; subst.
  apply matches_class_inv in H4 as (c & -> & Hp).
  rewrite !some_app. simpl. rewrite Hp. simpl.
  now rewrite orb_true_r.
Qed.

Lemma lookahead_matches p s :
  every dot s = true -> some p s = true ->
  matches (Lookahead (Cat (Star (Class dot)) (Class p))) s.
Proof.
  intros Hdot Hsome. destruct (some_split p s Hsome) as (pre & c & post & -> & Hp).
  rewrite every_app in Hdot. apply andb_true_iff in Hdot as [Hpre _].
  unfold Lookahead.
  change (pre ++ String c post)%string with (pre ++ (String c "" ++ post))%string.
  rewrite <- append_assoc.
  constructor.
  - constructor; [now apply matches_star_class|now constructor].
  - apply matches_star_class. clear. induction post; simpl; auto.
Qed.

(** X1. The password check of [handleRegister] is the policy its message
    announces: at least eight characters with a lower-case letter, an
    upper-case letter, a digit and a special character, and, as the
    pattern's dot excludes them, no line break. *)
Theorem passwordRegex_is_the_policy :
  forall password, test passwordRegex password = password_policy password.
Proof.
  intros password. apply eq_true_iff_eq. rewrite test_matches.
  unfold passwordRegex, password_policy. rewrite !andb_true_iff.
  split.
  - intros H.
    inversion H as [| | | | | | |? ? ? Hlow H1]; subst.
    inversion H1 as [| | | | | | |? ? ? Hup H2]; subst.
    inversion H2 as [| | | | | | |? ? ? Hdig H3]; subst.
    inversion H3 as [| | | | | | |? ? ? Hspec Hlen]; subst.
    apply (proj1 (matches_at_least dot 8 password)) in Hlen as [Hlen Hdot].
    apply matches_lookahead in Hlow, Hup, Hdig, Hspec.
    repeat split; try assumption. now apply Nat.leb_le.
  - intros [[[[[Hlen Hdot] Hlow] Hup] Hdig] Hspec].
    apply Nat.leb_le in Hlen.
    do 4 (constructor; [now apply lookahead_matches|]).
    apply (proj2 (matches_at_least dot 8 password)). now split.
Qed.




(* ===================================================================== *)
(** ** Order ids                                                          *)
(* ===================================================================== *)

Lemma value36_digit36 d : 0 <= d < 36 -> value36 (digit36 d) = d.
Proof.
  intros Hd.
  assert (Hall : forallb (fun n => value36 (digit36 (Z.of_nat n)) =? Z.of_nat n)%Z
                   (seq 0 36) = true) by (vm_compute; reflexivity).
  rewrite forallb_forall in Hall.
  specialize (Hall (Z.to_nat d)). rewrite Z2Nat.id in Hall by lia.
  apply Z.eqb_eq, Hall. apply in_seq. lia.
Qed.

Lemma parseInt36_from_app acc (a b : string) :
  parseInt36_from acc (a ++ b)%string = parseInt36_from (parseInt36_from acc a) b.
Proof.
  revert acc. induction a as [|c a IH]; intros acc; simpl; [reflexivity|apply IH].
Qed.

Lemma toString36_aux_step fuel n acc :
  toString36_aux (S fuel) n acc =
  if (n / 36 =? 0)%Z then String (digit36 (n mod 36)) acc
  else toString36_aux fuel (n / 36) (String (digit36 (n mod 36)) acc).
Proof. reflexivity. Qed.

(** The digits [toString36_aux] writes in front of [acc] read back as the
    number. *)
Lemma toString36_aux_digits fuel n acc :
  0 <= n < 2 ^ Z.of_nat (S fuel) ->
  exists digits,
    toString36_aux (S fuel) n acc = (digits ++ acc)%string /\
    forall v, parseInt36_from v digits = v * 36 ^ Z.of_nat (String.length digits) + n.
Proof.
  revert n acc. induction fuel as [|fuel IH]; intros n acc Hn.
  - assert (n = 0 \/ n = 1) as [-> | ->] by (change (2 ^ Z.of_nat 1) with 2 in Hn; lia).
    + exists "0"%string. split; [reflexivity|]. intros v. simpl. unfold value36. simpl. lia.
    + exists "1"%string. split; [reflexivity|]. intros v. simpl. unfold value36. simpl. lia.
  - rewrite toString36_aux_step.
    destruct (n / 36 =? 0)%Z eqn:Hq.
    + apply Z.eqb_eq in Hq.
      assert (Hsmall : 0 <= n < 36).
      { destruct (Z_lt_ge_dec n 36); [lia|].
        assert (1 <= n / 36) by (apply Z.div_le_lower_bound; lia). lia. }
      exists (String (digit36 (n mod 36)) ""). split; [reflexivity|].
      intros v. simpl. rewrite value36_digit36 by (apply Z.mod_pos_bound; lia).
      rewrite Z.mod_small by lia. lia.
    + apply Z.eqb_neq in Hq.
      assert (Hdiv : 0 <= n / 36 < 2 ^ Z.of_nat (S fuel)).
      { split; [apply Z.div_pos; lia|].
        apply Z.div_lt_upper_bound; [lia|].
        replace (Z.of_nat (S (S fuel))) with (Z.of_nat (S fuel) + 1) in Hn by lia.
        rewrite Z.pow_add_r in Hn by lia.
        assert (0 < 2 ^ Z.of_nat (S fuel)) by (apply Z.pow_pos_nonneg; lia). lia. }
      destruct (IH (n / 36) (String (digit36 (n mod 36)) acc) Hdiv)
        as (digits & Hrun & Hval).
      exists (digits ++ String (digit36 (n mod 36)) "")%string. split.
      * rewrite Hrun, append_assoc. reflexivity.
      * intros v. rewrite parseInt36_from_app, Hval. simpl.
        rewrite value36_digit36 by (apply Z.mod_pos_bound; lia).
        rewrite length_append. simpl.
        replace (Z.of_nat (String.length digits + 1))
          with (Z.of_nat (String.length digits) + 1) by lia.
        rewrite Z.pow_add_r by lia.
        pose proof (Z.div_mod n 36 ltac:(lia)). lia.
Qed.

(** Base 36 round trip: the digits of a non-negative number read back as
    that number. *)
Lemma parseInt36_toString36 n : 0 <= n -> parseInt36 (toString36 n) = n.
Proof.
  intros Hn. unfold toString36, parseInt36.
  destruct (toString36_aux_digits (Z.to_nat (Z.log2 n)) n "") as (digits & Hrun & Hval).
  - split; [assumption|].
    destruct (Z.eq_dec n 0) as [->|Hne]; [simpl; lia|].
    rewrite Nat2Z.inj_succ, Z2Nat.id by apply Z.log2_nonneg.
    apply Z.log2_spec. lia.
  - rewrite Hrun, append_empty_r, Hval. lia.
Qed.

(** X3. The id of an order names the millisecond it was placed in, and
    nothing else: for clocks that are not negative, two orders that
    [processOrder] placed have the same id exactly when they were placed
    at the same clock value, whatever the customer, the items and the
    mode.  Ids written in base 36 read back as the clock value. *)
Theorem order_id_is_the_clock :
  forall w1 w2 orderData1 orderData2 o1 o2,
    0 <= clock w1 -> 0 <= clock w2 ->
    order_produced w1 (after (processOrder orderData1) w1) o1 ->
    order_produced w2 (after (processOrder orderData2) w2) o2 ->
    Order.id o1 = ("ORD-" ++ toString36 (clock w1))%string /\
    parseInt36 (toString36 (clock w1)) = clock w1 /\
    (Order.id o1 = Order.id o2 <-> clock w1 = clock w2).
Proof.
  intros w1 w2 d1 d2 o1 o2 Hc1 Hc2 H1 H2.
  destruct (processOrder_produced _ _ _ H1) as (items1 & orders1 & _ & _ & -> & _).
  destruct (processOrder_produced _ _ _ H2) as (items2 & orders2 & _ & _ & -> & _).
  split; [reflexivity|]. split; [now apply parseInt36_toString36|].
  simpl. split.
  - intros E. injection E as E.
    rewrite <- (parseInt36_toString36 (clock w1)), <- (parseInt36_toString36 (clock w2))
      by assumption.
    now rewrite E.
  - intros ->. reflexivity.
Qed.

(** Two orders placed in one millisecond, one from the cart and one in
    buy-now mode, carry the same id. *)
Lemma order_id_is_the_clock_witness :
  exists o1 o2,
    order_produced cart_checkout (after (processOrder customer) cart_checkout) o1 /\
    order_produced buy_now_checkout (after (processOrder customer) buy_now_checkout) o2 /\
    Order.id o1 = "ORD-LOYW3V28" /\
    Order.id o1 = Order.id o2.
Proof.
  exists (new_order customer cart_checkout (map CartLine two_shirts)),
         (new_order customer buy_now_checkout [BuyNowLine one_jacket]).
  assert (H1 : order_produced cart_checkout (after (processOrder customer) cart_checkout)
                 (new_order customer cart_checkout (map CartLine two_shirts))).
  { exists []. split; reflexivity. }
  assert (H2 : order_produced buy_now_checkout
                 (after (processOrder customer) buy_now_checkout)
                 (new_order customer buy_now_checkout [BuyNowLine one_jacket])).
  { exists []. split; reflexivity. }
  destruct (order_id_is_the_clock cart_checkout buy_now_checkout customer customer _ _
              ltac:(vm_compute; discriminate) ltac:(vm_compute; discriminate) H1 H2)
    as (Hid & _ & Hsame).
  split; [exact H1|]. split; [exact H2|]. split.
  - rewrite Hid. reflexivity.
  - apply Hsame. reflexivity.
Defined.

(* ===================================================================== *)
(** ** More about the cart                                                *)
(* ===================================================================== *)

Section Sums.
Variable f : CartItem.t -> Q.
Let total (cart : Cart) (from : Q) : Q := fold_left (fun a item => (a + f item)%Q) cart from.



End Sums.









Lemma cartItemId_key a b : line_key a = line_key b -> cartItemId a = cartItemId b.
Proof.
  unfold line_key, cartItemId. intros H. injection H as -> -> ->. reflexivity.
Qed.

Lemma filter_all {A} (h : A -> bool) (l : list A) :
  (forall x, In x l -> h x = true) -> filter h l = l.
Proof.
  induction l as [|x l IH]; simpl; intros H; [reflexivity|].
  rewrite (H x) by now left. f_equal. apply IH. intros y Hy. apply H. now right.
Qed.

Lemma no_key_no_line pid size color (line : CartItem.t) cart :
  line_key line = (pid, size, color) ->
  (forall item, In item cart -> cartItemId item <> cartItemId line) ->
  existsb (same_line pid size color) cart = false.
Proof.
  intros Hk Hnone. destruct (existsb _ cart) eqn:Hex; [|reflexivity].
  apply existsb_exists in Hex as (item & Hin & Hsame).
  apply same_line_key in Hsame. exfalso. apply (Hnone item Hin).
  apply cartItemId_key. congruence.
Qed.

(** X5. Removing a line that [addToCart] has just pushed gives the cart
    back as it was, provided no line of the cart had the new line's id
    string. *)
Theorem removeFromCart_undoes_addToCart :
  forall w cart p pid quantity size color,
    result getCart w = Normal cart ->
    Product.id p = Some pid -> pid <> 0 ->
    let line := new_line p pid quantity size color (toISOString (clock w)) in
    (forall item, In item cart -> cartItemId item <> cartItemId line) ->
    let w1 := after (addToCart (Some p) quantity size color) w in
    stored_cart w1 = Some (Json (cart ++ [line])) /\
    stored_cart (after (removeFromCart (cartItemId line)) w1) = Some (Json cart).
Proof.
  intros w cart p pid quantity size color Hcart Hid Hpid line Hnone w1.
  assert (Hex : existsb (same_line pid size color) cart = false).
  { now apply (no_key_no_line pid size color line). }
  assert (Hs1 : stored_cart w1 = Some (Json (cart ++ [line]))).
  { unfold w1, after.
    rewrite (addToCart_run w cart p pid quantity size color Hcart Hid Hpid).
    unfold merged. rewrite Hex. reflexivity. }
  split; [exact Hs1|].
  assert (Hc1 : result getCart w1 = Normal (cart ++ [line])).
  { rewrite result_getCart, Hs1. reflexivity. }
  destruct (removeFromCart_stored (cartItemId line) w1 _ Hc1) as [_ ->].
  do 2 f_equal. rewrite filter_app. simpl.
  rewrite String.eqb_refl. simpl. rewrite app_nil_r.
  apply filter_all. intros item Hin. apply negb_true_iff, String.eqb_neq.
  now apply Hnone.
Qed.

Lemma removeFromCart_undoes_addToCart_witness :
  stored_cart
    (after (removeFromCart "7-default-default")
       (after (addToCart (Some free_sample) 4 None None) cart_checkout))
  = Some (Json two_shirts).
Proof.
  destruct (removeFromCart_undoes_addToCart cart_checkout two_shirts free_sample 7 4
              None None eq_refl eq_refl ltac:(lia)) as [_ H].
  - intros item [<-|[]]. vm_compute. discriminate.
  - exact H.
Defined.

Lemma mutate_found_split {A} (f : A -> bool) (g : A -> A) pre x post :
  existsb f pre = false -> f x = true ->
  mutate_found f g (pre ++ x :: post) = pre ++ g x :: post.
Proof.
  intros Hpre Hx. induction pre as [|y pre IH]; simpl in *.
  - now rewrite Hx.
  - apply orb_false_iff in Hpre as [Hy Hpre]. rewrite Hy. f_equal. now apply IH.
Qed.

Lemma find_split {A} (f : A -> bool) pre x post :
  existsb f pre = false -> f x = true -> find f (pre ++ x :: post) = Some x.
Proof.
  intros Hpre Hx. induction pre as [|y pre IH]; simpl in *.
  - now rewrite Hx.
  - apply orb_false_iff in Hpre as [Hy Hpre]. rewrite Hy. now apply IH.
Qed.

(** X6. [updateCartItemQuantity] with a quantity of at least 1.  For an
    id string no line has, nothing at all happens: nothing is saved,
    drawn or announced.  Otherwise the first line with that id string
    gets the new quantity, and every other line, also a later one with
    the same id string, stays as it is. *)
Theorem updateCartItemQuantity_sets_first_line :
  forall w cart itemId quantity,
    ~ (quantity < 1)%Q ->
    result getCart w = Normal cart ->
    ((forall item, In item cart -> cartItemId item <> itemId) ->
     updateCartItemQuantity itemId quantity w = (Normal tt, w)) /\
    (forall pre line post,
       cart = pre ++ line :: post ->
       (forall item, In item pre -> cartItemId item <> itemId) ->
       cartItemId line = itemId ->
       result (updateCartItemQuantity itemId quantity) w = Normal tt /\
       stored_cart (after (updateCartItemQuantity itemId quantity) w)
       = Some (Json (pre ++ CartItem.with_quantity quantity line :: post))).
Proof.
  intros w cart itemId quantity Hq Hcart.
  assert (Hltb : ltb quantity 1 = false).
  { destruct (ltb quantity 1) eqn:E; [|reflexivity]. apply ltb_lt in E. tauto. }
  set (found := fun item => (cartItemId item =? itemId)%string).
  assert (Hnone : forall l, (forall item, In item l -> cartItemId item <> itemId) ->
                            existsb found l = false).
  { intros l Hl. destruct (existsb found l) eqn:E; [|reflexivity].
    apply existsb_exists in E as (item & Hin & Hf). apply String.eqb_eq in Hf.
    exfalso. now apply (Hl item). }
  split.
  - intros Habsent. unfold updateCartItemQuantity. rewrite Hltb.
    rewrite (bind_normal _ (getCart_normal Hcart)). fold found.
    apply Hnone in Habsent. apply find_none_existsb in Habsent.
    now rewrite Habsent.
  - intros pre line post -> Hpre Hline.
    assert (Hf : found line = true) by now apply String.eqb_eq.
    assert (Hrun : exists w',
               updateCartItemQuantity itemId quantity w = (Normal tt, w') /\
               stored_cart w'
               = Some (Json (pre ++ CartItem.with_quantity quantity line :: post))).
    { unfold updateCartItemQuantity. rewrite Hltb.
      rewrite (bind_normal _ (getCart_normal Hcart)). fold found.
      rewrite (find_split found pre line post (Hnone pre Hpre) Hf).
      rewrite (mutate_found_split found _ pre line post (Hnone pre Hpre) Hf).
      unfold bind at 1. rewrite saveCart_run.
      destruct (renderCart_after_save
                  (pre ++ CartItem.with_quantity quantity line :: post) w)
        as (w' & Hr & Hs).
      exists w'. split; [exact Hr|exact Hs]. }
    destruct Hrun as (w' & Hr & Hs). unfold result, after. rewrite Hr. now split.
Qed.

Lemma updateCartItemQuantity_sets_first_line_witness :
  updateCartItemQuantity "9-default-default" 3 cart_checkout = (Normal tt, cart_checkout) /\
  stored_cart (after (updateCartItemQuantity "1-default-default" 3) cart_checkout)
  = Some (Json [new_line shirt 1 3 None None (toISOString 1700000000000)]).
Proof.
  destruct (updateCartItemQuantity_sets_first_line cart_checkout two_shirts
              "9-default-default" 3 ltac:(vm_compute; discriminate) eq_refl)
    as [Habsent _].
  destruct (updateCartItemQuantity_sets_first_line cart_checkout two_shirts
              "1-default-default" 3 ltac:(vm_compute; discriminate) eq_refl)
    as [_ Hset].
  split.
  - apply Habsent. intros item [<-|[]]. vm_compute. discriminate.
  - destruct (Hset [] (new_line shirt 1 2 None None (toISOString 1700000000000)) []
                eq_refl) as [_ Hs].
    + intros item [].
    + reflexivity.
    + exact Hs.
Defined.

(** X7. The two notions of "the same line" differ.  [addToCart] compares
    size and colour as they are, so a product added without a size and
    then with the size "default" gets two lines; the id string of a line
    writes a missing size as "default", so both lines have one id string,
    and one [removeFromCart] with it removes them both. *)
Theorem default_size_lines_share_an_id :
  forall w cart p pid q1 q2 color,
    result getCart w = Normal cart ->
    Product.id p = Some pid -> pid <> 0 ->
    let line1 := new_line p pid q1 None color (toISOString (clock w)) in
    let line2 := new_line p pid q2 (Some "default") color (toISOString (clock w)) in
    (forall item, In item cart -> cartItemId item <> cartItemId line1) ->
    let w2 :=
      after (addToCart (Some p) q2 (Some "default") color)
        (after (addToCart (Some p) q1 None color) w) in
    cartItemId line1 = cartItemId line2 /\
    stored_cart w2 = Some (Json (cart ++ [line1; line2])) /\
    stored_cart (after (removeFromCart (cartItemId line1)) w2) = Some (Json cart).
Proof.
  intros w cart p pid q1 q2 color Hcart Hid Hpid line1 line2 Hnone w2.
  assert (Hids : cartItemId line1 = cartItemId line2) by reflexivity.
  split; [exact Hids|].
  destruct (removeFromCart_undoes_addToCart w cart p pid q1 None color Hcart Hid Hpid
              Hnone) as [Hs1 _].
  fold line1 in Hs1.
  set (w1 := after (addToCart (Some p) q1 None color) w) in *.
  assert (Hc1 : result getCart w1 = Normal (cart ++ [line1])).
  { rewrite result_getCart, Hs1. reflexivity. }
  assert (Hclock : clock w1 = clock w).
  { unfold w1, after.
    now rewrite (addToCart_run w cart p pid q1 None color Hcart Hid Hpid). }
  assert (Hex : existsb (same_line pid (Some "default") color) (cart ++ [line1]) = false).
  { rewrite existsb_app. simpl. rewrite orb_false_r.
    assert (same_line pid (Some "default") color line1 = false) as ->.
    { unfold same_line. simpl. now rewrite andb_false_r. }
    rewrite orb_false_r.
    apply (no_key_no_line pid (Some "default") color line2); [reflexivity|].
    intros item Hin. rewrite <- Hids. now apply Hnone. }
  assert (Hs2 : stored_cart w2 = Some (Json (cart ++ [line1; line2]))).
  { unfold w2, after. fold w1.
    rewrite (addToCart_run w1 _ p pid q2 (Some "default") color Hc1 Hid Hpid).
    unfold merged. rewrite Hex, Hclock. simpl. unfold stored_cart. simpl.
    now rewrite <- app_assoc. }
  split; [exact Hs2|].
  assert (Hc2 : result getCart w2 = Normal (cart ++ [line1; line2])).
  { rewrite result_getCart, Hs2. reflexivity. }
  destruct (removeFromCart_stored (cartItemId line1) w2 _ Hc2) as [_ ->].
  do 2 f_equal. rewrite filter_app. simpl.
  rewrite <- Hids, String.eqb_refl. simpl. rewrite app_nil_r.
  apply filter_all. intros item Hin. apply negb_true_iff, String.eqb_neq.
  now apply Hnone.
Qed.

Lemma default_size_lines_share_an_id_witness :
  exists line1 line2,
    stored_cart
      (after (addToCart (Some shirt) 1 (Some "default") None)
         (after (addToCart (Some shirt) 1 None None) fresh_world))
    = Some (Json [line1; line2]) /\
    stored_cart
      (after (removeFromCart "1-default-default")
         (after (addToCart (Some shirt) 1 (Some "default") None)
            (after (addToCart (Some shirt) 1 None None) fresh_world)))
    = Some (Json []).
Proof.
  destruct (default_size_lines_share_an_id fresh_world [] shirt 1 1 1 None
              eq_refl eq_refl ltac:(lia)) as (_ & H2 & H3).
  - intros item [].
  - eexists. eexists. split; [exact H2|exact H3].
Defined.

(* ===================================================================== *)
(** ** Quantities a visitor can reach                                     *)
(* ===================================================================== *)

Lemma updateModalQuantity_bounds shown change :
  1 <= updateModalQuantity shown change <= 10.
Proof.
  unfold updateModalQuantity.
  destruct (shown + change <? 1)%Z eqn:Hlow.
  - simpl. lia.
  - apply Z.ltb_ge in Hlow.
    destruct (shown + change >? 10)%Z eqn:Hhigh; [lia|].
    rewrite Z.gtb_ltb in Hhigh. apply Z.ltb_ge in Hhigh. lia.
Qed.

Lemma modal_after_bounds clicks : 1 <= modal_after clicks <= 10.
Proof.
  unfold modal_after.
  assert (H : forall shown, 1 <= shown <= 10 ->
            1 <= fold_left
                   (fun (shown : Z) (plus : bool) =>
                      updateModalQuantity shown (if plus then 1 else -1))
                   clicks shown <= 10).
  { induction clicks as [|plus clicks IH]; intros shown Hs; simpl; [assumption|].
    apply IH, updateModalQuantity_bounds. }
  apply H. lia.
Qed.

Lemma whole_quantities_stored w cart :
  stored_cart w = Some (Json cart) -> Forall whole_quantity cart -> whole_quantities w.
Proof.
  intros Hs Hw. exists cart. split; [|assumption]. now rewrite result_getCart, Hs.
Qed.

Lemma whole_quantities_none w : stored_cart w = None -> whole_quantities w.
Proof.
  intros Hs. exists []. split; [|constructor]. now rewrite result_getCart, Hs.
Qed.

Lemma whole_quantities_same w w' :
  stored_cart w' = stored_cart w -> whole_quantities w -> whole_quantities w'.
Proof.
  intros Hs (cart & Hc & Hw). exists cart. split; [|assumption].
  rewrite result_getCart in *. now rewrite Hs.
Qed.

Lemma Forall_filter_keeps {A} (P : A -> Prop) (h : A -> bool) l :
  Forall P l -> Forall P (filter h l).
Proof.
  rewrite !Forall_forall. intros H x Hx. apply filter_In in Hx as [Hx _]. auto.
Qed.

Lemma Forall_mutate_found {A} (P : A -> Prop) (f : A -> bool) (g : A -> A) l :
  (forall x, P x -> P (g x)) -> Forall P l -> Forall P (mutate_found f g l).
Proof.
  intros Hg. induction 1 as [|x l Hx Hl IH]; simpl; [constructor|].
  destruct (f x); constructor; auto.
Qed.

Lemma whole_plus a b : whole a -> whole b -> whole (a + b)%Q.
Proof.
  intros (n & Hn & Ea) (m & Hm & Eb). exists (n + m). split; [lia|].
  rewrite Ea, Eb, inject_Z_plus. reflexivity.
Qed.

Lemma whole_merged p pid q size color addedAt cart :
  whole q -> Forall whole_quantity cart ->
  Forall whole_quantity (merged p pid q size color addedAt cart).
Proof.
  intros Hq Hcart. unfold merged.
  destruct (existsb (same_line pid size color) cart).
  - apply Forall_mutate_found; [|assumption].
    intros x Hx. unfold whole_quantity, bump. simpl. now apply whole_plus.
  - apply Forall_app. split; [assumption|]. constructor; [exact Hq|constructor].
Qed.

Lemma after_bind_ret {A B} (m : JS A) (b : B) w :
  after (bind m (fun _ => ret b)) w = after m w.
Proof.
  unfold after, bind. destruct (m w) as [[a|e] w']; reflexivity.
Qed.

(** [addToCart] with a whole quantity keeps the quantities whole. *)
Lemma addToCart_keeps_whole product q size color w :
  whole q -> whole_quantities w ->
  whole_quantities (after (addToCart product q size color) w).
Proof.
  intros Hq (cart & Hc & Hw). unfold after.
  destruct product as [p|].
  2:{ rewrite addToCart_invalid by exact I.
      apply whole_quantities_same with (w := w); [reflexivity|now exists cart]. }
  destruct (Product.id p) as [pid|] eqn:Hid.
  2:{ rewrite addToCart_invalid by now rewrite Hid.
      apply whole_quantities_same with (w := w); [reflexivity|now exists cart]. }
  destruct (Z.eq_dec pid 0) as [->|Hpid].
  { rewrite addToCart_invalid by now rewrite Hid.
    apply whole_quantities_same with (w := w); [reflexivity|now exists cart]. }
  rewrite (addToCart_run w cart p pid q size color Hc Hid Hpid). simpl.
  eapply whole_quantities_stored; [reflexivity|]. now apply whole_merged.
Qed.

Lemma removeFromCart_keeps_whole itemId w :
  whole_quantities w -> whole_quantities (after (removeFromCart itemId) w).
Proof.
  intros (cart & Hc & Hw).
  destruct (removeFromCart_stored itemId w cart Hc) as [_ Hs].
  eapply whole_quantities_stored; [exact Hs|]. now apply Forall_filter_keeps.
Qed.

(** [updateCartItemQuantity] keeps the quantities whole when the new
    quantity, if it is not below 1, is whole. *)
Lemma updateCartItemQuantity_keeps_whole itemId q w :
  (ltb q 1 = false -> whole q) ->
  whole_quantities w ->
  whole_quantities (after (updateCartItemQuantity itemId q) w).
Proof.
  intros Hq Hinv. destruct (ltb q 1) eqn:Hlt.
  - unfold updateCartItemQuantity. rewrite Hlt. now apply removeFromCart_keeps_whole.
  - destruct Hinv as (cart & Hc & Hw).
    pose proof (updateCartItemQuantity_stored itemId q w cart Hlt Hc) as Hs.
    destruct (find _ cart).
    + eapply whole_quantities_stored; [exact Hs|].
      apply Forall_mutate_found; [|assumption].
      intros x _. unfold whole_quantity. simpl. now apply Hq.
    + apply whole_quantities_same with (w := w); [exact Hs|now exists cart].
Qed.

Lemma whole_step q change :
  whole q -> (change = 1 \/ change = -1) ->
  ltb (q + inject_Z change) 1 = false -> whole (q + inject_Z change)%Q.
Proof.
  intros (n & Hn & E) Hchange Hlt. exists (n + change). split.
  - destruct (Z_lt_ge_dec (n + change) 1) as [Hsmall|]; [|lia].
    exfalso. assert (Hb : ltb (q + inject_Z change) 1 = true); [|congruence].
    apply ltb_lt. rewrite E, <- inject_Z_plus.
    change 1%Q with (inject_Z 1). rewrite <- Zlt_Qlt. exact Hsmall.
  - rewrite E, inject_Z_plus. reflexivity.
Qed.

Lemma click_keeps_whole control c w :
  whole_quantities w -> shown control w ->
  whole_quantities (after (click control c) w).
Proof.
  intros Hinv Hshown.
  destruct control as [fetched productId|fetched productId clicks size color|
                       item|item|item|orderData]; simpl.
  - unfold quickAddToCart.
    destruct (getProductById fetched productId c) as [[p|] c']; [|exact Hinv].
    rewrite after_bind_ret. apply addToCart_keeps_whole; [|assumption].
    exists 1. split; [lia|reflexivity].
  - unfold addToCartFromModal.
    destruct (getProductById fetched productId c) as [[p|] c']; [|exact Hinv].
    rewrite after_bind_ret. apply addToCart_keeps_whole; [|assumption].
    exists (modal_after clicks). split; [apply modal_after_bounds|reflexivity].
  - rewrite after_bind_ret. apply updateCartItemQuantity_keeps_whole; [|assumption].
    destruct Hshown as (cart & Hc & Hin). destruct Hinv as (cart' & Hc' & Hw).
    assert (cart' = cart) by congruence. subst cart'.
    rewrite Forall_forall in Hw. specialize (Hw item Hin).
    apply (whole_step (CartItem.quantity item) (-1) Hw). now right.
  - rewrite after_bind_ret. apply updateCartItemQuantity_keeps_whole; [|assumption].
    destruct Hshown as (cart & Hc & Hin). destruct Hinv as (cart' & Hc' & Hw).
    assert (cart' = cart) by congruence. subst cart'.
    rewrite Forall_forall in Hw. specialize (Hw item Hin).
    apply (whole_step (CartItem.quantity item) 1 Hw). now left.
  - rewrite after_bind_ret. now apply removeFromCart_keeps_whole.
  - rewrite after_bind_ret.
    destruct (handleCheckoutSubmit_cart orderData w) as [Hs|Hs].
    + now apply whole_quantities_same with (w := w).
    + now apply whole_quantities_none.
Qed.

(** X8. Through the controls of the pages the stored cart only ever holds
    whole quantities of at least 1.  The product modal keeps its number
    between 1 and 10 whatever is clicked, and a click on the minus button
    of a line with quantity 1 removes the line instead of storing 0.
    ([addToCart] itself checks no quantity; the controls never hand it
    one below 1.) *)
Theorem controls_keep_quantities_whole :
  (forall clicks, 1 <= modal_after clicks <= 10) /\
  (forall c w,
     visited c w ->
     exists cart, result getCart w = Normal cart /\ Forall whole_quantity cart).
Proof.
  split; [exact modal_after_bounds|].
  intros c w H. induction H as [c w Hs|c w control _ IH Hshown|c c' w w' _ IH Hs].
  - now apply whole_quantities_none.
  - now apply click_keeps_whole.
  - now apply whole_quantities_same with (w := w).
Qed.

(** Fifteen clicks on plus leave the modal at 10; a sticker added from
    the modal and then one click on the minus button of its line leave
    no line. *)
Lemma controls_keep_quantities_whole_witness :
  modal_after (repeat true 15) = 10 /\
  exists cart,
    result getCart
      (after (click (ClickMinus (new_line free_sample 7 1 None None
                                   (toISOString 1700000000000)))
                {| productsCache := None; featuredProductsCache := None;
                   activeCategory := None; console := [] |})
         free_checkout)
    = Normal cart /\
    Forall whole_quantity cart /\ cart = [].
Proof.
  split; [reflexivity|].
  destruct controls_keep_quantities_whole as [_ H].
  set (c := {| productsCache := None; featuredProductsCache := None;
               activeCategory := None; console := [] |}).
  set (minus := ClickMinus (new_line free_sample 7 1 None None
                              (toISOString 1700000000000))).
  assert (Hv : visited (catalogue_after minus c free_checkout)
                 (after (click minus c) free_checkout)).
  { apply visited_click.
    - apply visited_elsewhere
        with (c := catalogue_after
                     (ModalAdd (Body (Some [free_sample])) 7 [] None None) c fresh_world)
             (w := after (click (ModalAdd (Body (Some [free_sample])) 7 [] None None) c)
                     fresh_world).
      + apply visited_click; [apply visited_fresh; reflexivity|exact I].
      + reflexivity.
    - exists one_sticker. split; [reflexivity|left; reflexivity]. }
  destruct (H _ _ Hv) as (cart & Hc & Hw).
  exists cart. split; [exact Hc|]. split; [exact Hw|].
  vm_compute in Hc. now injection Hc as <-.
Defined.

(* ===================================================================== *)
(** ** More about orders                                                  *)
(* ===================================================================== *)












(** X12. Buying at once.  The item [buyNowFromModal] puts aside is the
    item of the order: on the checkout page in buy-now mode, with the
    session storage as [buyNowFromModal] left it, [processOrder] appends
    an order whose one item is the chosen product with the chosen
    quantity, size and colour and whose subtotal is price times quantity;
    it leaves the cart key alone and removes the pending item. *)
Theorem buy_now_item_is_ordered :
  forall w p quantity size color w' orderData orders,
    stored_buy_now w'
    = stored_buy_now (after (buyNowFromModal (Some p) quantity size color) w) ->
    param_mode w' = Some "buy-now" ->
    order_log w' = Normal orders ->
    let item :=
      {| BuyNowItem.product := p; BuyNowItem.quantity := quantity;
         BuyNowItem.size := size; BuyNowItem.color := color;
         BuyNowItem.isBuyNow := true |} in
    exists o,
      order_produced w' (after (processOrder orderData) w') o /\
      Order.items o = [BuyNowLine item] /\
      same (Order.subtotal o) (Num (Product.price p * quantity)) /\
      stored_cart (after (processOrder orderData) w') = stored_cart w' /\
      stored_buy_now (after (processOrder orderData) w') = None.
Proof.
  intros w p quantity size color w' orderData orders Hitem Hmode Hlog item.
  apply buy_now_mode_true in Hmode.
  assert (Hitems : order_items w' = Normal [BuyNowLine item]).
  { unfold order_items. rewrite Hmode, Hitem. reflexivity. }
  exists (new_order orderData w' [BuyNowLine item]).
  split; [now apply processOrder_places with (orders := orders)|].
  split; [reflexivity|]. split; [simpl; ring|].
  unfold after. rewrite processOrder_run, Hitems, Hlog. unfold placed.
  rewrite Hmode. split; reflexivity.
Qed.

Lemma buy_now_item_is_ordered_witness :
  exists o,
    order_produced buy_now_checkout (after (processOrder customer) buy_now_checkout) o /\
    Order.items o = [BuyNowLine one_jacket] /\
    stored_cart (after (processOrder customer) buy_now_checkout) = Some (Json two_shirts).
Proof.
  destruct (buy_now_item_is_ordered cart_checkout jacket 1 None None buy_now_checkout
              customer [] eq_refl eq_refl eq_refl)
    as (o & Hprod & Hitems & _ & Hcart & _).
  exists o. split; [exact Hprod|]. split; [exact Hitems|]. now rewrite Hcart.
Defined.

(* ===================================================================== *)
(** ** More about accounts                                                *)
(* ===================================================================== *)

Lemma email_free users e :
  (forall user, In user users -> User.email user <> e) ->
  existsb (fun user => (User.email user =? e)%string) users = false.
Proof.
  intros Hfree. destruct (existsb _ users) eqn:Hex; [|reflexivity].
  apply existsb_exists in Hex as (user & Hin & He). apply String.eqb_eq in He.
  exfalso. now apply (Hfree user).
Qed.


Lemma getCurrentUser_run w session users :
  stored_session w = Some (Json session) ->
  result getUsers w = Normal users ->
  getCurrentUser w
  = (Normal (find (fun user => (User.email user =? Session.email session)%string) users),
     w).
Proof.
  intros Hs Hu. unfold getCurrentUser.
  rewrite (bind_normal _ (a := Some session) (w' := w))
    by now rewrite getSession_run, Hs.
  unfold result in Hu. rewrite getUsers_run in Hu. simpl in Hu.
  unfold bind. now rewrite getUsers_run, Hu.
Qed.



(** [handleRegister] for any four inputs: either nothing is stored, or
    the account is created for an address no stored user has. *)
Lemma handleRegister_users nameValue emailValue passwordValue confirmValue w users :
  result getUsers w = Normal users ->
  stored_users (after (handleRegister nameValue emailValue passwordValue confirmValue) w)
  = stored_users w \/
  exists user,
    stored_users (after (handleRegister nameValue emailValue passwordValue confirmValue) w)
    = Some (Json (users ++ [user])) /\
    forall u, In u users -> User.email u <> User.email user.
Proof.
  intros Hu.
  destruct nameValue as [name|], emailValue as [email|], passwordValue as [password|];
    try (left; reflexivity).
  destruct confirmValue as [confirmPassword|].
  2:{ left. unfold after, handleRegister. simpl.
      now rewrite !orb_true_r. }
  destruct (fields_accepted name email password confirmPassword) eqn:Hok.
  - unfold after. rewrite (handleRegister_fields_accepted w users _ _ _ _ Hok Hu).
    destruct (existsb _ users) eqn:Hex; [now left|].
    right. exists (new_user name email password w). split; [reflexivity|].
    intros u Hin He. simpl in He.
    assert (existsb (fun user => (User.email user =? normalised email)%string) users
            = true); [|congruence].
    apply existsb_exists. exists u. split; [assumption|now apply String.eqb_eq].
  - left. destruct (handleRegister_fields_rejected w _ _ _ _ Hok) as (message & _ & E).
    unfold after. now rewrite E.
Qed.

(** X14. Registration keeps the addresses of the stored users pairwise
    different, whatever is typed into the form. *)
Theorem handleRegister_keeps_emails_unique :
  forall w users nameValue emailValue passwordValue confirmValue,
    result getUsers w = Normal users ->
    NoDup (map User.email users) ->
    exists users',
      result getUsers
        (after (handleRegister nameValue emailValue passwordValue confirmValue) w)
      = Normal users' /\
      NoDup (map User.email users').
Proof.
  intros w users nameValue emailValue passwordValue confirmValue Hu Hnd.
  destruct (handleRegister_users nameValue emailValue passwordValue confirmValue w users Hu)
    as [Hs|(user & Hs & Hfree)].
  - exists users. split; [|assumption].
    unfold result in *. rewrite getUsers_run in *. simpl in *. now rewrite Hs.
  - exists (users ++ [user]). split.
    + unfold result. rewrite getUsers_run. simpl. now rewrite Hs.
    + rewrite map_app. simpl. apply NoDup_snoc; [assumption|].
      intros Hin. apply in_map_iff in Hin as (u & He & Hin). now apply (Hfree u).
Qed.

Lemma handleRegister_keeps_emails_unique_witness :
  exists users',
    result getUsers
      (after (handleRegister (Some "Ada B") (Some " A@B.com ") (Some "0therPass!")
                (Some "0therPass!")) ada_registered)
    = Normal users' /\
    NoDup (map User.email users').
Proof.
  apply (handleRegister_keeps_emails_unique ada_registered [ada]); [reflexivity|].
  simpl. constructor; [intros []|constructor].
Defined.




(** X16. A session whose user is gone.  With a session in session storage
    and no stored user of its address, [isLoggedIn] is still true (so
    the checkout page opens), while [getCurrentUser] is null. *)
Theorem session_without_user :
  forall w session users,
    stored_session w = Some (Json session) ->
    result getUsers w = Normal users ->
    (forall user, In user users -> User.email user <> Session.email session) ->
    result isLoggedIn w = Normal true /\
    result getCurrentUser w = Normal None.
Proof.
  intros w session users Hs Hu Hfree. unfold result.
  rewrite (isLoggedIn_run w session Hs), (getCurrentUser_run w session users Hs Hu).
  split; [reflexivity|]. simpl. f_equal.
  apply find_none_existsb. now apply email_free.
Qed.

Lemma session_without_user_witness :
  result isLoggedIn empty_cart_checkout = Normal true /\
  result getCurrentUser empty_cart_checkout = Normal None.
Proof.
  apply (session_without_user empty_cart_checkout ada_session []);
    [reflexivity|reflexivity|intros user []].
Defined.

(* ===================================================================== *)
(** ** The catalogue                                                      *)
(* ===================================================================== *)

(** X17. The product list is fetched until a fetch succeeds, and never
    again.  A successful answer is kept, an empty or missing product list
    included, and later calls return it without looking at the network; a
    failed fetch returns no products, writes to the console, keeps
    nothing, and the next call asks the network again. *)
Theorem getAllProducts_caches_success_only :
  forall c fetched later,
    productsCache c = None ->
    let loaded := fst (getAllProducts fetched c) in
    let c1 := snd (getAllProducts fetched c) in
    (forall products,
       fetched = Body products ->
       loaded = match products with Some ps => ps | None => [] end /\
       getAllProducts later c1 = (loaded, c1)) /\
    (fetched = FetchFailed \/ fetched = NotOk ->
     loaded = [] /\
     productsCache c1 = None /\
     console c1 <> console c /\
     fst (getAllProducts later c1) = fst (getAllProducts later c)).
Proof.
  intros c fetched later Hcache loaded c1. unfold loaded, c1, getAllProducts.
  rewrite Hcache. split.
  - intros products ->. simpl. split; reflexivity.
  - assert (Hgrow : forall msg, console c ++ [msg] <> console c).
    { intros msg E. apply (f_equal (@length _)) in E.
      rewrite length_app in E. simpl in E. lia. }
    intros [-> | ->]; simpl; rewrite Hcache;
      (split; [reflexivity|split; [reflexivity|split; [apply Hgrow|]]]);
      destruct later as [| |[ps|]]; reflexivity.
Qed.

Lemma getAllProducts_caches_success_only_witness :
  getAllProducts FetchFailed
    (snd (getAllProducts (Body (Some [shirt; jacket]))
            {| productsCache := None; featuredProductsCache := None;
               activeCategory := None; console := [] |}))
  = ([shirt; jacket],
     {| productsCache := Some [shirt; jacket]; featuredProductsCache := None;
        activeCategory := None; console := [] |}).
Proof.
  destruct (getAllProducts_caches_success_only
              {| productsCache := None; featuredProductsCache := None;
                 activeCategory := None; console := [] |}
              (Body (Some [shirt; jacket])) FetchFailed eq_refl) as [H _].
  destruct (H (Some [shirt; jacket]) eq_refl) as [_ E]. exact E.
Defined.

(** X18. The featured list can go stale.  When the first call of
    [getFeaturedProducts] meets a failed fetch, the empty list it returns
    is kept: every later call returns no featured product, whatever the
    network answers then, although [getAllProducts] does load the
    products on its next call. *)
Theorem getFeaturedProducts_keeps_a_failed_load :
  forall c fetched later products,
    productsCache c = None ->
    featuredProductsCache c = None ->
    fetched = FetchFailed \/ fetched = NotOk ->
    let c1 := snd (getFeaturedProducts fetched c) in
    fst (getFeaturedProducts fetched c) = [] /\
    getFeaturedProducts later c1 = ([], c1) /\
    fst (getAllProducts (Body (Some products)) c1) = products.
Proof.
  intros c fetched later products Hcache Hfeatured Hfailed c1.
  unfold c1, getFeaturedProducts, getAllProducts.
  rewrite Hfeatured, Hcache.
  destruct Hfailed as [-> | ->]; simpl; rewrite Hcache; repeat split; reflexivity.
Qed.

Lemma getFeaturedProducts_keeps_a_failed_load_witness :
  fst (getFeaturedProducts (Body (Some [shirt; jacket]))
         (snd (getFeaturedProducts NotOk
                 {| productsCache := None; featuredProductsCache := None;
                    activeCategory := None; console := [] |})))
  = [].
Proof.
  destruct (getFeaturedProducts_keeps_a_failed_load
              {| productsCache := None; featuredProductsCache := None;
                 activeCategory := None; console := [] |}
              NotOk (Body (Some [shirt; jacket])) [shirt; jacket] eq_refl eq_refl
              ltac:(right; reflexivity)) as (_ & E & _).
  now rewrite E.
Defined.

Lemma getProductById_run fetched id c :
  getProductById fetched id c
  = (find (has_id id) (fst (getAllProducts fetched c)), snd (getAllProducts fetched c)).
Proof.
  unfold getProductById. now destruct (getAllProducts fetched c).
Qed.

(** X19. "Add to Cart" on a product card.  For an id the catalogue does
    not have, the click changes nothing.  For the id 0, the product is
    found but [addToCart] refuses it: the cart key stays as it was and
    only a console error is logged.  For any other id the catalogue has,
    the click is [addToCart] of the first product with that id, quantity
    1, no size, no colour. *)
Theorem quickAddToCart_by_id :
  forall fetched productId c w,
    let products := fst (getAllProducts fetched c) in
    ((forall p, In p products -> Product.id p <> Some productId) ->
     after (quickAddToCart fetched productId c) w = w) /\
    (forall p,
       find (has_id productId) products = Some p ->
       Product.id p = Some productId /\
       (productId = 0 ->
        after (quickAddToCart fetched productId c) w
        = with_effect (ConsoleError "Invalid product provided to addToCart") w) /\
       (productId <> 0 ->
        after (quickAddToCart fetched productId c) w
        = after (addToCart (Some p) 1 None None) w)).
Proof.
  intros fetched productId c w products. unfold quickAddToCart.
  rewrite getProductById_run. fold products. split.
  - intros Hnone.
    assert (find (has_id productId) products = None) as ->; [|reflexivity].
    apply find_none_existsb. destruct (existsb _ products) eqn:Hex; [|reflexivity].
    apply existsb_exists in Hex as (p & Hin & Hid). exfalso. apply (Hnone p Hin).
    unfold has_id in Hid. destruct (Product.id p) as [pid|]; [|discriminate].
    apply Z.eqb_eq in Hid. now subst.
  - intros p Hfind. rewrite Hfind.
    assert (Hid : Product.id p = Some productId).
    { apply find_some in Hfind as [_ Hid]. unfold has_id in Hid.
      destruct (Product.id p) as [pid|]; [|discriminate].
      apply Z.eqb_eq in Hid. now subst. }
    split; [exact Hid|]. rewrite after_bind_ret. split; [|reflexivity].
    intros ->. unfold after. rewrite addToCart_invalid; [reflexivity|].
    now rewrite Hid.
Qed.

Lemma quickAddToCart_by_id_witness :
  stored_cart
    (after (quickAddToCart (Body (Some [shirt; jacket])) 1
              {| productsCache := None; featuredProductsCache := None;
                 activeCategory := None; console := [] |}) fresh_world)
  = Some (Json [new_line shirt 1 1 None None (toISOString 1700000000000)]) /\
  after (quickAddToCart (Body (Some [shirt; jacket])) 5
           {| productsCache := None; featuredProductsCache := None;
              activeCategory := None; console := [] |}) fresh_world
  = fresh_world.
Proof.
  destruct (quickAddToCart_by_id (Body (Some [shirt; jacket])) 1
              {| productsCache := None; featuredProductsCache := None;
                 activeCategory := None; console := [] |} fresh_world) as [_ Hfound].
  destruct (quickAddToCart_by_id (Body (Some [shirt; jacket])) 5
              {| productsCache := None; featuredProductsCache := None;
                 activeCategory := None; console := [] |} fresh_world) as [Hnone _].
  destruct (Hfound shirt eq_refl) as (_ & _ & Hadd).
  split.
  - rewrite (Hadd ltac:(lia)). reflexivity.
  - apply Hnone. intros p [<-|[<-|[]]]; discriminate.
Defined.

Lemma lower_idempotent c : lower (lower c) = lower c.
Proof. destruct c as [[] [] [] [] [] [] [] []]; reflexivity. Qed.

Lemma toLowerCase_idempotent s : toLowerCase (toLowerCase s) = toLowerCase s.
Proof.
  induction s as [|c s IH]; simpl; [reflexivity|]. now rewrite lower_idempotent, IH.
Qed.

Lemma includes_empty s : includes "" s = true.
Proof. destruct s; reflexivity. Qed.

Lemma search_run fetched typed c :
  search fetched typed c
  = (filter
       (fun p =>
          (if strict_eq (activeCategory c) (Some "all") then true
           else strict_eq (Some (Product.category p)) (activeCategory c))
          && (includes (toLowerCase typed) (toLowerCase (Product.name p))
              || includes (toLowerCase typed) (toLowerCase (Product.description p))
              || includes (toLowerCase typed) (toLowerCase (Product.category p))))
       (fst (getAllProducts fetched c)),
     snd (getAllProducts fetched c)).
Proof.
  unfold search, getAllProducts.
  destruct (productsCache c); [reflexivity|].
  destruct fetched; reflexivity.
Qed.

(** X20. The search box.  What is typed is matched without regard to its
    case.  With the tab "all" active and nothing typed every product is
    listed.  With another tab active only products whose category field
    is that tab's name are ever listed; so under the "sale" tab, where
    [getProductsByCategory] shows the products on sale, the search drops
    every one of them whose category is not the word "sale".  When no tab
    was ever made active nothing is listed at all. *)
Theorem search_within_the_active_category :
  forall fetched typed c,
    let products := fst (getAllProducts fetched c) in
    let listed := fst (search fetched typed c) in
    fst (search fetched (toLowerCase typed) c) = listed /\
    (activeCategory c = Some "all" -> typed = "" -> listed = products) /\
    (forall p tab,
       activeCategory c = Some tab -> tab <> "all" ->
       In p listed -> Product.category p = tab) /\
    (forall p,
       activeCategory c = Some "sale" ->
       In p (fst (getProductsByCategory fetched "sale" c)) ->
       Product.onSale p = true /\
       (Product.category p <> "sale" -> ~ In p listed)) /\
    (activeCategory c = None -> listed = []).
Proof.
  intros fetched typed c products listed. unfold listed, products.
  rewrite !search_run. simpl.
  assert (Htab : forall p tab,
             activeCategory c = Some tab -> tab <> "all" ->
             In p (filter
                     (fun p =>
                        (if strict_eq (activeCategory c) (Some "all") then true
                         else strict_eq (Some (Product.category p)) (activeCategory c))
                        && (includes (toLowerCase typed) (toLowerCase (Product.name p))
                            || includes (toLowerCase typed)
                                 (toLowerCase (Product.description p))
                            || includes (toLowerCase typed)
                                 (toLowerCase (Product.category p))))
                     (fst (getAllProducts fetched c))) ->
             Product.category p = tab).
  { intros p tab Htab Hne Hin. apply filter_In in Hin as [_ Hp].
    rewrite Htab in Hp. simpl in Hp.
    destruct (tab =? "all")%string eqn:E; [apply String.eqb_eq in E; congruence|].
    apply andb_true_iff in Hp as [Hp _]. now apply String.eqb_eq. }
  split; [|split; [|split; [exact Htab|split]]].
  - now rewrite toLowerCase_idempotent.
  - intros Hall ->. rewrite Hall. simpl.
    apply filter_all. intros p _. now rewrite includes_empty.
  - intros p Hsale Hin. split.
    + unfold getProductsByCategory in Hin.
      destruct (getAllProducts fetched c) as [ps c']. simpl in Hin.
      now apply filter_In in Hin as [_ Hon].
    + intros Hcat Hlisted. apply Hcat.
      apply (Htab p "sale" Hsale); [discriminate|exact Hlisted].
  - intros Hnone. rewrite Hnone. simpl. clear Htab.
    induction (fst (getAllProducts fetched c)) as [|p ps IH]; simpl; auto.
Qed.

(** One jacket on sale in the women's category: the "sale" tab shows it,
    and typing its name under that tab finds nothing. *)
Lemma search_within_the_active_category_witness :
  fst (getProductsByCategory (Body (Some [shirt; jacket])) "sale"
         {| productsCache := None; featuredProductsCache := None;
            activeCategory := Some "sale"; console := [] |})
  = [jacket] /\
  ~ In jacket
      (fst (search (Body (Some [shirt; jacket])) "Jacket"
              {| productsCache := None; featuredProductsCache := None;
                 activeCategory := Some "sale"; console := [] |})) /\
  fst (search (Body (Some [shirt; jacket])) ""
         {| productsCache := None; featuredProductsCache := None;
            activeCategory := Some "all"; console := [] |})
  = [shirt; jacket].
Proof.
  destruct (search_within_the_active_category (Body (Some [shirt; jacket])) "Jacket"
              {| productsCache := None; featuredProductsCache := None;
                 activeCategory := Some "sale"; console := [] |})
    as (_ & _ & _ & Hsale & _).
  destruct (search_within_the_active_category (Body (Some [shirt; jacket])) ""
              {| productsCache := None; featuredProductsCache := None;
                 activeCategory := Some "all"; console := [] |})
    as (_ & Hall & _).
  split; [reflexivity|]. split.
  - destruct (Hsale jacket eq_refl ltac:(left; reflexivity)) as [_ Hdrop].
    apply Hdrop. discriminate.
  - exact (Hall eq_refl eq_refl).
Defined.

(* ===================================================================== *)
(** ** The theme                                                          *)
(* ===================================================================== *)

Lemma toggleTheme_fields t :
  toggleTheme t
  = {| theme_slot := Some (if isDarkMode t then LIGHT_THEME else DARK_THEME);
       html_dark := negb (isDarkMode t);
       theme_toggle := theme_toggle t;
       sun_hidden := if theme_toggle t then isDarkMode t else sun_hidden t;
       moon_hidden := if theme_toggle t then negb (isDarkMode t) else moon_hidden t |}.
Proof.
  unfold toggleTheme, isDarkMode, getCurrentTheme, updateThemeToggleIcon, applyTheme.
  destruct (or_default (theme_slot t) LIGHT_THEME =? DARK_THEME)%string;
    destruct (theme_toggle t) eqn:Htog; simpl; rewrite ?Htog; reflexivity.
Qed.

Lemma isDarkMode_toggleTheme t : isDarkMode (toggleTheme t) = negb (isDarkMode t).
Proof.
  rewrite toggleTheme_fields. unfold isDarkMode at 1, getCurrentTheme. simpl.
  destruct (isDarkMode t); reflexivity.
Qed.

Lemma getCurrentTheme_truthy t : truthy_string (getCurrentTheme t) = true.
Proof.
  unfold getCurrentTheme, or_default.
  destruct (theme_slot t) as [s|]; [|reflexivity].
  destruct (truthy_string s) eqn:Hs; [exact Hs|reflexivity].
Qed.

Lemma initTheme_fields t :
  initTheme t
  = {| theme_slot := Some (getCurrentTheme t);
       html_dark := isDarkMode t;
       theme_toggle := theme_toggle t;
       sun_hidden := if theme_toggle t then negb (isDarkMode t) else sun_hidden t;
       moon_hidden := if theme_toggle t then isDarkMode t else moon_hidden t |}.
Proof.
  unfold initTheme, isDarkMode, getCurrentTheme, updateThemeToggleIcon, applyTheme.
  destruct (theme_toggle t) eqn:Htog; simpl; rewrite ?Htog; reflexivity.
Qed.

(** X21. The theme toggle.  [toggleTheme] switches between dark and not
    dark, always stores the word "dark" or "light", and leaves the [dark]
    class of the document and the icons of the toggle button in step with
    what is stored; two toggles bring back the mode, and once a toggle
    has happened two more bring back the whole state.  [initTheme] keeps
    the mode, puts the document in step with it, and stores "light" when
    nothing (or the empty string) was stored. *)
Theorem toggleTheme_switches :
  forall t,
    isDarkMode (toggleTheme t) = negb (isDarkMode t) /\
    html_dark (toggleTheme t) = isDarkMode (toggleTheme t) /\
    (theme_slot (toggleTheme t) = Some DARK_THEME
     \/ theme_slot (toggleTheme t) = Some LIGHT_THEME) /\
    (theme_toggle t = true ->
     sun_hidden (toggleTheme t) = negb (isDarkMode (toggleTheme t)) /\
     moon_hidden (toggleTheme t) = isDarkMode (toggleTheme t)) /\
    isDarkMode (toggleTheme (toggleTheme t)) = isDarkMode t /\
    toggleTheme (toggleTheme (toggleTheme t)) = toggleTheme t /\
    isDarkMode (initTheme t) = isDarkMode t /\
    html_dark (initTheme t) = isDarkMode t /\
    (truthy (theme_slot t) = false -> theme_slot (initTheme t) = Some LIGHT_THEME).
Proof.
  intros t.
  split; [apply isDarkMode_toggleTheme|].
  split; [rewrite isDarkMode_toggleTheme, toggleTheme_fields; reflexivity|].
  split; [rewrite toggleTheme_fields; simpl; destruct (isDarkMode t); auto|].
  split.
  { intros Htog. rewrite isDarkMode_toggleTheme, toggleTheme_fields. simpl.
    rewrite Htog, negb_involutive. split; reflexivity. }
  split; [rewrite !isDarkMode_toggleTheme; apply negb_involutive|].
  split.
  { rewrite (toggleTheme_fields (toggleTheme (toggleTheme t))).
    rewrite !isDarkMode_toggleTheme, negb_involutive.
    rewrite (toggleTheme_fields (toggleTheme t)), isDarkMode_toggleTheme.
    rewrite (toggleTheme_fields t). simpl.
    destruct (theme_toggle t), (isDarkMode t); reflexivity. }
  split.
  { rewrite initTheme_fields. unfold isDarkMode at 1, getCurrentTheme at 1. simpl.
    unfold or_default. now rewrite getCurrentTheme_truthy. }
  split; [rewrite initTheme_fields; reflexivity|].
  intros Hf. rewrite initTheme_fields. simpl. f_equal.
  unfold getCurrentTheme, or_default. destruct (theme_slot t) as [s|]; [|reflexivity].
  simpl in Hf. now rewrite Hf.
Qed.

(** A page with the toggle button and nothing stored: one toggle makes it
    dark and shows the sun, a second makes it light again. *)
Lemma toggleTheme_switches_witness :
  theme_slot
    (toggleTheme {| theme_slot := None; html_dark := false; theme_toggle := true;
                    sun_hidden := true; moon_hidden := false |})
  = Some DARK_THEME /\
  sun_hidden
    (toggleTheme {| theme_slot := None; html_dark := false; theme_toggle := true;
                    sun_hidden := true; moon_hidden := false |})
  = false /\
  theme_slot
    (initTheme {| theme_slot := Some ""; html_dark := true; theme_toggle := true;
                  sun_hidden := true; moon_hidden := false |})
  = Some LIGHT_THEME.
Proof.
  destruct (toggleTheme_switches
              {| theme_slot := None; html_dark := false; theme_toggle := true;
                 sun_hidden := true; moon_hidden := false |})
    as (Hdark & _ & _ & Hicons & _).
  destruct (toggleTheme_switches
              {| theme_slot := Some ""; html_dark := true; theme_toggle := true;
                 sun_hidden := true; moon_hidden := false |})
    as (_ & _ & _ & _ & _ & _ & _ & _ & Hinit).
  destruct (Hicons eq_refl) as [Hsun _].
  split; [reflexivity|]. split.
  - rewrite Hsun, Hdark. reflexivity.
  - exact (Hinit eq_refl).
Defined.

(* ===================================================================== *)
(** ** Failures                                                           *)
(* ===================================================================== *)

(** X22. All or nothing.  When one of the storage-writing functions stops
    with an exception (the only one there is comes from [JSON.parse] on a
    stored string), it has changed nothing: storage, page and log are as
    before.  No order is half placed, no cart half saved. *)
Theorem exceptions_change_nothing :
  forall w e,
    (forall orderData,
       result (processOrder orderData) w = Throw e ->
       after (processOrder orderData) w = w) /\
    (forall orderData,
       result (handleCheckoutSubmit orderData) w = Throw e ->
       after (handleCheckoutSubmit orderData) w = w) /\
    (forall product quantity size color,
       result (addToCart product quantity size color) w = Throw e ->
       after (addToCart product quantity size color) w = w) /\
    (forall itemId,
       result (removeFromCart itemId) w = Throw e ->
       after (removeFromCart itemId) w = w) /\
    (forall itemId quantity,
       result (updateCartItemQuantity itemId quantity) w = Throw e ->
       after (updateCartItemQuantity itemId quantity) w = w) /\
    (forall nameValue emailValue passwordValue confirmValue,
       result (handleRegister nameValue emailValue passwordValue confirmValue) w
       = Throw e ->
       after (handleRegister nameValue emailValue passwordValue confirmValue) w = w) /\
    (forall emailValue passwordValue,
       result (handleLogin emailValue passwordValue) w = Throw e ->
       after (handleLogin emailValue passwordValue) w = w).
Proof.
  intros w e.
  assert (Hprocess : forall orderData,
             result (processOrder orderData) w = Throw e ->
             after (processOrder orderData) w = w).
  { intros orderData. unfold result, after. rewrite processOrder_run.
    destruct (order_items w); [|reflexivity].
    destruct (order_log w); [discriminate|reflexivity]. }
  assert (Hremove : forall itemId,
             result (removeFromCart itemId) w = Throw e ->
             after (removeFromCart itemId) w = w).
  { intros itemId. destruct (parsed (stored_cart w) []) as [cart|e'] eqn:Hc.
    - destruct (removeFromCart_stored itemId w cart) as [Hr _];
        [now rewrite result_getCart|]. congruence.
    - intros _. unfold after, removeFromCart, bind. now rewrite getCart_run, Hc. }
  split; [exact Hprocess|]. split.
  { intros orderData. unfold result, after. rewrite handleCheckoutSubmit_run.
    destruct (checkout_errors orderData); [apply Hprocess|discriminate]. }
  split.
  { intros product quantity size color.
    destruct product as [p|];
      [|unfold result; rewrite (addToCart_invalid w None) by exact I; discriminate].
    destruct (Product.id p) as [pid|] eqn:Hid;
      [|unfold result; rewrite addToCart_invalid by (now rewrite Hid); discriminate].
    destruct (Z.eq_dec pid 0) as [->|Hpid];
      [unfold result; rewrite addToCart_invalid by (now rewrite Hid); discriminate|].
    destruct (parsed (stored_cart w) []) as [cart|e'] eqn:Hc.
    - unfold result.
      rewrite (addToCart_run w cart p pid quantity size color) by
        (try assumption; now rewrite result_getCart).
      discriminate.
    - intros _. unfold after, addToCart. rewrite Hid.
      apply Z.eqb_neq in Hpid. rewrite Hpid. unfold bind.
      now rewrite getCart_run, Hc. }
  split; [exact Hremove|]. split.
  { intros itemId quantity. unfold updateCartItemQuantity.
    destruct (ltb quantity 1); [apply Hremove|].
    destruct (parsed (stored_cart w) []) as [cart|e'] eqn:Hc.
    - assert (Hcart : result getCart w = Normal cart) by now rewrite result_getCart.
      unfold result, after. rewrite (bind_normal _ (getCart_normal Hcart)).
      destruct (find _ cart); [|discriminate].
      assert (Hrun : exists w',
                 bind (saveCart
                         (mutate_found (fun item => (cartItemId item =? itemId)%string)
                            (CartItem.with_quantity quantity) cart))
                   (fun _ => renderCart) w = (Normal tt, w')).
      { unfold bind. rewrite saveCart_run.
        destruct (renderCart_after_save
                    (mutate_found (fun item => (cartItemId item =? itemId)%string)
                       (CartItem.with_quantity quantity) cart) w) as (w' & Hr & _).
        exists w'. exact Hr. }
      destruct Hrun as (w' & ->). discriminate.
    - intros _. unfold after, bind. now rewrite getCart_run, Hc. }
  split.
  { intros nameValue emailValue passwordValue confirmValue.
    destruct nameValue as [name|], emailValue as [email|], passwordValue as [password|];
      try discriminate.
    destruct confirmValue as [confirmPassword|].
    2:{ unfold result, handleRegister. simpl. rewrite !orb_true_r. discriminate. }
    destruct (fields_accepted name email password confirmPassword) eqn:Hok.
    - destruct (parsed (stored_users w) []) as [users|e'] eqn:Hu.
      + unfold result.
        rewrite (handleRegister_fields_accepted w users) by
          (try assumption; unfold result; now rewrite getUsers_run).
        destruct (existsb _ users); discriminate.
      + intros _. revert Hok. unfold fields_accepted, normalised, handleRegister. simpl.
        intros Hok. repeat (apply andb_true_iff in Hok as [Hok ?]).
        repeat match goal with H : _ = true |- _ => rewrite H; clear H end. simpl.
        unfold after, bind. now rewrite getUsers_run, Hu.
    - destruct (handleRegister_fields_rejected w _ _ _ _ Hok) as (message & _ & E).
      unfold result. rewrite E. discriminate. }
  intros emailValue passwordValue.
  destruct emailValue as [email|], passwordValue as [password|]; try discriminate.
  destruct (string_dec (normalised email) "") as [He|He];
    [unfold result; rewrite handleLogin_blank by (now left); discriminate|].
  destruct (string_dec password "") as [Hp|Hp];
    [unfold result; rewrite handleLogin_blank by (now right); discriminate|].
  destruct (parsed (stored_users w) []) as [users|e'] eqn:Hu.
  - unfold result.
    rewrite (handleLogin_filled w users) by
      (try assumption; unfold result; now rewrite getUsers_run).
    destruct (find _ users) as [user|]; [|discriminate].
    destruct (User.password user =? password)%string; discriminate.
  - intros _. unfold handleLogin, normalised in *. simpl.
    apply truthy_string_true in He, Hp. rewrite He, Hp. simpl.
    unfold after, bind. now rewrite getUsers_run, Hu.
Qed.

(** With a cart key that is not JSON, a checkout in cart mode throws and
    leaves everything as it was. *)
Lemma exceptions_change_nothing_witness :
  result (processOrder customer) garbled_cart = Throw SyntaxError /\
  after (processOrder customer) garbled_cart = garbled_cart.
Proof.
  destruct (exceptions_change_nothing garbled_cart SyntaxError) as (H & _).
  split; [reflexivity|]. apply H. reflexivity.
Defined.
